(** * Keyword Idea Generator: the page script [index.tsx], embedded and verified

    The script is a form handler around one call to a hosted text generator,
    a markdown renderer with a sanitizer, and two exporters that scrape the
    rendered tables back into CSV and JSON.

    Strings are [String.string]; a character stands for one code unit of the
    script's strings, restricted to the range 0..255. *)

From Stdlib Require Import String Ascii List Bool Arith ZArith Lia.
Import ListNotations.
Open Scope string_scope.

(** ** Characters and string helpers *)

Definition quote_char : ascii := "034"%char.
Definition comma_char : ascii := ","%char.
Definition newline_char : ascii := "010"%char.

Definition dq : string := String quote_char "".
Definition nl : string := String newline_char "".

(** [Array.prototype.join]: the elements separated by [sep], the empty array
    giving the empty string. *)
Fixpoint join (sep : string) (l : list string) : string :=
  match l with
  | [] => ""
  | x :: rest =>
      match rest with
      | [] => x
      | _ :: _ => x ++ sep ++ join sep rest
      end
  end.

(** [String.prototype.startsWith]. *)
Fixpoint startsWith (s p : string) {struct p} : bool :=
  match p with
  | "" => true
  | String c p' =>
      match s with
      | "" => false
      | String d s' => Ascii.eqb c d && startsWith s' p'
      end
  end.

(** [String.prototype.includes]. *)
Fixpoint includes (s needle : string) : bool :=
  startsWith s needle ||
  match s with
  | "" => false
  | String _ s' => includes s' needle
  end.

(** White space of [String.prototype.trim] within the modelled range:
    TAB, LF, VT, FF, CR, SPACE and NBSP. *)
Definition is_space (c : ascii) : bool :=
  let n := nat_of_ascii c in
  ((9 <=? n)%nat && (n <=? 13)%nat) || (n =? 32)%nat || (n =? 160)%nat.

Fixpoint trimStart (s : string) : string :=
  match s with
  | "" => ""
  | String c s' => if is_space c then trimStart s' else s
  end.

Fixpoint trimEnd (s : string) : string :=
  match s with
  | "" => ""
  | String c s' =>
      match trimEnd s' with
      | "" => if is_space c then "" else String c ""
      | t => String c t
      end
  end.

Definition trim (s : string) : string := trimEnd (trimStart s).

(** ** CSV escaping (the [data.map] at the end of [exportKeywordsToCSV]) *)

Module Csv.

(** [cell.replace] with the global pattern matching one double quote and the
    replacement made of two: every double quote becomes two. *)
Fixpoint replaceQuotes (cell : string) : string :=
  match cell with
  | "" => ""
  | String c rest =>
      if Ascii.eqb c quote_char
      then String quote_char (String quote_char (replaceQuotes rest))
      else String c (replaceQuotes rest)
  end.

(** The characters the pattern of [search] matches: a double quote, a comma
    or a line feed. *)
Definition special (c : ascii) : bool :=
  Ascii.eqb c quote_char || Ascii.eqb c comma_char || Ascii.eqb c newline_char.

(** [String.prototype.search]: index of the first match, [-1] without one. *)
Fixpoint search (s : string) : Z :=
  match s with
  | "" => (-1)%Z
  | String c rest =>
      if special c then 0%Z
      else let i := search rest in
           if (i <? 0)%Z then (-1)%Z else (i + 1)%Z
  end.

(** The callback of the inner [row.map]. *)
Definition escapeCell (cell : string) : string :=
  let newCell := replaceQuotes cell in
  if (search newCell >=? 0)%Z then dq ++ newCell ++ dq else newCell.

Definition csvRow (row : list string) : string :=
  join "," (map escapeCell row).

Definition csvContent (data : list (list string)) : string :=
  join nl (map csvRow data).

(** *** The reader the escaping is written for

    A reader of the dialect the exporter writes: fields separated by commas,
    records by a single line feed, a field optionally enclosed in double
    quotes, inside which a doubled quote stands for one quote.  It follows
    the wording of the specification (parsing the produced CSV); the
    script itself has no reader.  Malformed text gives [None]. *)

Inductive pstate : Type :=
  | FieldStart   (* nothing of the field read yet *)
  | InBare       (* inside an unquoted field *)
  | InQuoted     (* inside a quoted field *)
  | QuoteSeen.   (* a quote read inside a quoted field *)

Fixpoint parse_go (st : pstate) (fld : string) (row : list string)
    (rows : list (list string)) (input : string)
  : option (list (list string)) :=
  match input with
  | "" =>
      match st with
      | InQuoted => None
      | _ => Some (rows ++ [row ++ [fld]])%list
      end
  | String c rest =>
      match st with
      | FieldStart | InBare =>
          if Ascii.eqb c quote_char then
            match st with
            | FieldStart => parse_go InQuoted "" row rows rest
            | _ => None
            end
          else if Ascii.eqb c comma_char then
            parse_go FieldStart "" (row ++ [fld])%list rows rest
          else if Ascii.eqb c newline_char then
            parse_go FieldStart "" [] (rows ++ [row ++ [fld]])%list rest
          else parse_go InBare (fld ++ String c "") row rows rest
      | InQuoted =>
          if Ascii.eqb c quote_char then parse_go QuoteSeen fld row rows rest
          else parse_go InQuoted (fld ++ String c "") row rows rest
      | QuoteSeen =>
          if Ascii.eqb c quote_char then
            parse_go InQuoted (fld ++ dq) row rows rest
          else if Ascii.eqb c comma_char then
            parse_go FieldStart "" (row ++ [fld])%list rows rest
          else if Ascii.eqb c newline_char then
            parse_go FieldStart "" [] (rows ++ [row ++ [fld]])%list rest
          else None
      end
  end.

Definition parse_csv (text : string) : option (list (list string)) :=
  parse_go FieldStart "" [] [] text.

(** What the reader does once a field [fld] is complete and [rest] is left. *)
Definition after_field (fld : string) (row : list string)
    (rows : list (list string)) (rest : string)
  : option (list (list string)) :=
  match rest with
  | "" => Some (rows ++ [row ++ [fld]])%list
  | String c rest' =>
      if Ascii.eqb c comma_char then
        parse_go FieldStart "" (row ++ [fld])%list rows rest'
      else if Ascii.eqb c newline_char then
        parse_go FieldStart "" [] (rows ++ [row ++ [fld]])%list rest'
      else None
  end.

(** [rest] is empty or begins with a separator. *)
Definition at_separator (rest : string) : bool :=
  match rest with
  | "" => true
  | String c _ => Ascii.eqb c comma_char || Ascii.eqb c newline_char
  end.

End Csv.

(** ** The rendered document

    The content of the results container as a tree of elements and text
    nodes.  Element names are the lower-case local names the HTML parser
    produces; attributes play no part in the exporters. *)

#[warnings="-register-all"] Inductive node : Type :=
  | Elem (tag : string) (kids : list node)
  | Text (data : string).

Definition upper (c : ascii) : ascii :=
  let n := nat_of_ascii c in
  if ((97 <=? n)%nat && (n <=? 122)%nat)%bool then ascii_of_nat (n - 32) else c.

Fixpoint toUpperCase (s : string) : string :=
  match s with
  | "" => ""
  | String c rest => String (upper c) (toUpperCase rest)
  end.

(** [Element.tagName] of an HTML element: the local name in upper case. *)
Definition tagName (n : node) : string :=
  match n with
  | Elem t _ => toUpperCase t
  | Text _ => ""
  end.

Definition has_tag (t : string) (n : node) : bool :=
  match n with
  | Elem t' _ => String.eqb t' t
  | Text _ => false
  end.

(** [Node.textContent]: the text of all descendant text nodes, in order. *)
Fixpoint textContent (n : node) : string :=
  match n with
  | Text s => s
  | Elem _ kids => String.concat "" (map textContent kids)
  end.

(** An element met during a traversal, with what the selectors and
    [nextElementSibling] need to know of its surroundings: the sibling nodes
    that follow it and whether one of its ancestors is a [tbody]. *)
Record located : Type := mkLocated {
  el : node;
  following : list node;
  under_tbody : bool
}.

(** The results container itself; it has no [tbody] above it. *)
Definition at_root (container : node) : located :=
  {| el := container; following := []; under_tbody := false |}.

(** [Element.nextElementSibling]: the first following sibling that is an
    element. *)
Fixpoint next_element (under : bool) (l : list node) : option located :=
  match l with
  | [] => None
  | Elem t ks :: rest =>
      Some {| el := Elem t ks; following := rest; under_tbody := under |}
  | Text _ :: rest => next_element under rest
  end.

Definition nextElementSibling (x : located) : option located :=
  next_element (under_tbody x) (following x).

(** All element descendants of [n] in document order; [under] tells whether
    [n] has a [tbody] ancestor. *)
Fixpoint descendants (under : bool) (n : node) : list located :=
  match n with
  | Text _ => []
  | Elem t kids =>
      let under' := (under || String.eqb t "tbody")%bool in
      (fix walk (l : list node) : list located :=
         match l with
         | [] => []
         | k :: rest =>
             (match k with
              | Elem _ _ =>
                  [{| el := k; following := rest; under_tbody := under' |}]
              | Text _ => []
              end ++ descendants under' k ++ walk rest)%list
         end) kids
  end.

(** [scope.querySelectorAll(t)] for a type selector [t]. *)
Definition querySelectorAll (t : string) (scope : located) : list located :=
  filter (fun x => has_tag t (el x))
         (descendants (under_tbody scope) (el scope)).

(** [scope.querySelectorAll('tbody tr')]: the [tr] descendants of the scope
    that have a [tbody] among their ancestors. *)
Definition querySelectorAll_tbody_tr (scope : located) : list located :=
  filter (fun x => (has_tag "tr" (el x) && under_tbody x)%bool)
         (descendants (under_tbody scope) (el scope)).

(** ** What the page takes from the browser and its libraries *)

Inductive outcome (A : Type) : Type :=
  | Returns (a : A)
  | Throws (error : string).
Arguments Returns {A} a.
Arguments Throws {A} error.

(** A plain object with string values, as the list of its own properties in
    the order of their creation.  The order in which the properties are
    enumerated differs from it for keys that are array indices, which come
    first and in ascending order; producing it is part of [JSON_stringify]
    below. *)
Definition object : Type := list (string * string).

Class Platform : Type := {
  (** [marked.parse], awaited: markdown to HTML. *)
  marked_parse : string -> outcome string;
  (** [DOMPurify.sanitize]. *)
  sanitize : string -> outcome string;
  (** [HTMLElement.innerText], which depends on layout. *)
  innerText : node -> string;
  (** [JSON.stringify(data, null, 2)]. *)
  JSON_stringify : list object -> string
}.

(** What a handler does to the world outside the page state. *)
Inductive effect : Type :=
  | PreventDefault
  | GenerateContent (model contents : string)
  | InnerHTML (html : string)   (* an assignment to resultsContainer.innerHTML *)
  | ConsoleError (label error : string)
  | Alert (message : string)
  | DownloadFile (content fileName mimeType : string).

(** ** exportKeywordsToCSV *)

Section Exporters.
Context `{Platform}.

Definition cellText (x : located) : string := trim (innerText (el x)).

(** The body of [rows.forEach]: a row with at least one cell is pushed. *)
Definition csv_visit_row (data : list (list string)) (row : located)
  : list (list string) :=
  let rowData := map cellText (querySelectorAll "td" row) in
  if (0 <? List.length rowData)%nat then (data ++ [rowData])%list else data.

(** The block guarded by [table && table.tagName === 'TABLE'].  The state
    is the pair of the script's [data] and [headers]. *)
Definition csv_visit_table (table : located)
    (st : list (list string) * list string)
  : list (list string) * list string :=
  let '(data, headers) := st in
  let '(data, headers) :=
    if (List.length headers =? 0)%nat then
      let headers := map cellText (querySelectorAll "th" table) in
      ((data ++ [headers])%list, headers)
    else (data, headers) in
  (fold_left csv_visit_row (querySelectorAll_tbody_tr table) data, headers).

(** The body of [headings.forEach]. *)
Definition csv_visit_heading (st : list (list string) * list string)
    (heading : located) : list (list string) * list string :=
  if startsWith (textContent (el heading)) "Ad Group:" then
    match nextElementSibling heading with
    | Some table =>
        if String.eqb (tagName (el table)) "TABLE"
        then csv_visit_table table st
        else st
    | None => st
    end
  else st.

(** [data] when the loop over the [h4] headings is over. *)
Definition csv_data (container : node) : list (list string) :=
  fst (fold_left csv_visit_heading
         (querySelectorAll "h4" (at_root container)) ([], [])).

Definition exportKeywordsToCSV (container : node) : list effect :=
  let data := csv_data container in
  if (List.length data <=? 1)%nat then
    [Alert "No keyword data found to export."]
  else
    [DownloadFile (Csv.csvContent data) "keyword_ideas.csv"
       "text/csv;charset=utf-8;"].

(** ** exportPriorityKeywordsToJSON *)

(** [o[key] = value] on a plain object: an existing property keeps its
    place in the order of creation, a new one is the latest, and the key
    [__proto__] reaches the inherited setter, which ignores a string. *)
Fixpoint obj_put (key value : string) (o : object) : object :=
  match o with
  | [] => [(key, value)]
  | (k, v) :: rest =>
      if String.eqb k key then (k, value) :: rest
      else (k, v) :: obj_put key value rest
  end.

Definition obj_set (key value : string) (o : object) : object :=
  if String.eqb key "__proto__" then o else obj_put key value o.

Fixpoint obj_get (key : string) (o : object) : option string :=
  match o with
  | [] => None
  | (k, v) :: rest => if String.eqb k key then Some v else obj_get key rest
  end.

(** [headers.forEach((header, index) => rowData[header] = cells[index]...)],
    from position [index] on.  Reading [innerText] of a missing cell
    throws. *)
Fixpoint fill_row (headers : list string) (index : nat)
    (cells : list located) (rowData : object) : outcome object :=
  match headers with
  | [] => Returns rowData
  | header :: rest =>
      match nth_error cells index with
      | Some cell =>
          fill_row rest (S index) cells (obj_set header (cellText cell) rowData)
      | None => Throws "TypeError"
      end
  end.

(** The body of [rows.forEach]. *)
Definition json_visit_row (headers : list string)
    (acc : outcome (list object)) (row : located) : outcome (list object) :=
  match acc with
  | Throws e => Throws e
  | Returns data =>
      let cells := querySelectorAll "td" row in
      if (List.length cells =? List.length headers)%nat then
        match fill_row headers 0 cells [] with
        | Returns rowData => Returns (data ++ [rowData])%list
        | Throws e => Throws e
        end
      else Returns data
  end.

Definition is_priority_heading (h3 : located) : bool :=
  String.eqb (trim (textContent (el h3))) "Priority Keywords".

Definition priorityHeading (container : node) : option located :=
  find is_priority_heading (querySelectorAll "h3" (at_root container)).

(** [data] after the block that reads the table next to [heading]. *)
Definition json_data (heading : located) : outcome (list object) :=
  match nextElementSibling heading with
  | Some table =>
      if String.eqb (tagName (el table)) "TABLE" then
        let headers := map cellText (querySelectorAll "th" table) in
        fold_left (json_visit_row headers) (querySelectorAll_tbody_tr table)
                  (Returns [])
      else Returns []
  | None => Returns []
  end.

Definition exportPriorityKeywordsToJSON (container : node)
  : outcome (list effect) :=
  match priorityHeading container with
  | None => Returns [Alert "No priority keywords found to export."]
  | Some heading =>
      match json_data heading with
      | Throws e => Throws e
      | Returns data =>
          if (List.length data =? 0)%nat then
            Returns [Alert "No priority keywords found to export."]
          else
            Returns [DownloadFile (JSON_stringify data) "priority_keywords.json"
                       "application/json;charset=utf-8;"]
      end
  end.

End Exporters.

(** ** buildPrompt *)

(** The values of the five form controls. *)
Record FormInputs : Type := mkFormInputs {
  service : string;
  url : string;
  location : string;
  goal : string;
  language : string
}.

(** The template literal, one list element per line of the source. *)
Definition promptLines (f : FormInputs) : list string :=
  [ "";
    "You are a world-class digital marketer and keyword/SEO specialist. Your task is to generate a comprehensive Google Ads keyword analysis based on the user's inputs.";
    "";
    "Please generate the following based on these inputs:";
    "- Service(s): " ++ service f;
    "- Website URL: " ++ url f;
    "- Location(s): " ++ location f;
    "- Campaign Goal: " ++ goal f;
    "- Language(s): " ++ language f;
    "";
    "Produce your output in markdown format. Do not include the backticks for the markdown block in your response.";
    "";
    "Follow this structure precisely:";
    "";
    "### Keyword Ideas";
    "";
    "Group keywords into themed ad groups. For each keyword, provide an estimated monthly search volume for the specified location, the 12-month trend (rising/stable/declining), the competition level (Low/Medium/High), and a suggested CPC bid range.";
    "";
    "#### Ad Group: [Theme Name 1]";
    "| Keyword | Monthly Search Volume | Trend (12 mo) | Competition | Suggested CPC |";
    "|---|---|---|---|---|";
    "| keyword example 1 | ~1,200 | stable | Medium | $1.50 - $3.00 |";
    "| keyword example 2 | ~800 | rising | Low | $0.75 - $1.50 |";
    "";
    "#### Ad Group: [Theme Name 2]";
    "| Keyword | Monthly Search Volume | Trend (12 mo) | Competition | Suggested CPC |";
    "|---|---|---|---|---|";
    "| keyword example 3 | ~2,500 | stable | High | $3.50 - $6.00 |";
    "| keyword example 4 | ~500 | declining | Medium | $1.00 - $2.50 |";
    "";
    "";
    "### Priority Keywords";
    "";
    "List the top 5-10 keywords you would recommend starting with, based on a balance of volume, relevance, and competition.";
    "";
    "| Priority Keyword | Reason for Prioritization |";
    "|---|---|";
    "| keyword example 1 | High purchase intent and good volume. |";
    "| keyword example 3 | Core service term with high volume. |";
    "";
    "";
    "### Negative Keywords";
    "";
    "Suggest a list of negative keywords to exclude irrelevant traffic. Use a simple bulleted list.";
    "";
    "- DIY";
    "- free";
    "- jobs";
    "- course";
    "" ].

Definition buildPrompt (f : FormInputs) : string := join nl (promptLines f).

(** ** The page state and the submit handler *)

(** The module variable [isLoading] and the properties of the page's
    elements the script writes.  [placeholder_display] is [None] when the
    page has no placeholder element. *)
Record ui : Type := mkUi {
  isLoading : bool;
  form : FormInputs;
  generateBtn_disabled : bool;
  spinner_hidden : bool;
  btnText_textContent : string;
  resultsContainer_innerHTML : string;
  placeholder_display : option string;
  exportControls_hidden : bool
}.

(** A computation of the handler: it reads and writes the page state, acts
    on the outside world and may throw. *)
Definition M (A : Type) : Type := ui -> outcome A * ui * list effect.

Definition ret {A} (a : A) : M A := fun st => (Returns a, st, []).

Definition bind {A B} (m : M A) (k : A -> M B) : M B :=
  fun st =>
    match m st with
    | (Returns a, st1, e1) =>
        let '(r, st2, e2) := k a st1 in (r, st2, (e1 ++ e2)%list)
    | (Throws x, st1, e1) => (Throws x, st1, e1)
    end.

Notation "x <- m ;; k" := (bind m (fun x => k))
  (at level 61, m at next level, right associativity).
Notation "m ;;; k" := (bind m (fun _ => k))
  (at level 61, right associativity).

Definition throw {A} (error : string) : M A := fun st => (Throws error, st, []).

Definition lift {A} (r : outcome A) : M A := fun st => (r, st, []).

Definition emit (e : effect) : M unit := fun st => (Returns tt, st, [e]).

Definition read {A} (field : ui -> A) : M A := fun st => (Returns (field st), st, []).

Definition modify (f : ui -> ui) : M unit := fun st => (Returns tt, f st, []).

(** [try { m } catch (error) { handler error }]. *)
Definition try_catch {A} (m : M A) (handler : string -> M A) : M A :=
  fun st =>
    match m st with
    | (Throws x, st1, e1) =>
        let '(r, st2, e2) := handler x st1 in (r, st2, (e1 ++ e2)%list)
    | done => done
    end.

(** [try { m } finally { cleanup }]. *)
Definition try_finally {A} (m : M A) (cleanup : M unit) : M A :=
  fun st =>
    let '(r, st1, e1) := m st in
    match cleanup st1 with
    | (Returns _, st2, e2) => (r, st2, (e1 ++ e2)%list)
    | (Throws y, st2, e2) => (Throws y, st2, (e1 ++ e2)%list)
    end.

(** The assignments of the script, one field each. *)
Definition set_isLoading (b : bool) (st : ui) : ui :=
  mkUi b (form st) (generateBtn_disabled st) (spinner_hidden st)
       (btnText_textContent st) (resultsContainer_innerHTML st)
       (placeholder_display st) (exportControls_hidden st).

Definition set_generateBtn_disabled (b : bool) (st : ui) : ui :=
  mkUi (isLoading st) (form st) b (spinner_hidden st)
       (btnText_textContent st) (resultsContainer_innerHTML st)
       (placeholder_display st) (exportControls_hidden st).

Definition set_spinner_hidden (b : bool) (st : ui) : ui :=
  mkUi (isLoading st) (form st) (generateBtn_disabled st) b
       (btnText_textContent st) (resultsContainer_innerHTML st)
       (placeholder_display st) (exportControls_hidden st).

Definition set_btnText_textContent (t : string) (st : ui) : ui :=
  mkUi (isLoading st) (form st) (generateBtn_disabled st) (spinner_hidden st)
       t (resultsContainer_innerHTML st)
       (placeholder_display st) (exportControls_hidden st).

Definition set_resultsContainer_innerHTML (html : string) (st : ui) : ui :=
  mkUi (isLoading st) (form st) (generateBtn_disabled st) (spinner_hidden st)
       (btnText_textContent st) html
       (placeholder_display st) (exportControls_hidden st).

Definition set_placeholder_display (d : option string) (st : ui) : ui :=
  mkUi (isLoading st) (form st) (generateBtn_disabled st) (spinner_hidden st)
       (btnText_textContent st) (resultsContainer_innerHTML st)
       d (exportControls_hidden st).

Definition set_exportControls_hidden (b : bool) (st : ui) : ui :=
  mkUi (isLoading st) (form st) (generateBtn_disabled st) (spinner_hidden st)
       (btnText_textContent st) (resultsContainer_innerHTML st)
       (placeholder_display st) b.

(** [resultsContainer.innerHTML = html]. *)
Definition write_results (html : string) : M unit :=
  modify (set_resultsContainer_innerHTML html) ;;; emit (InnerHTML html).

Definition setLoading (loading : bool) : M unit :=
  modify (set_isLoading loading) ;;;
  modify (set_generateBtn_disabled loading) ;;;
  modify (set_spinner_hidden (negb loading)) ;;;
  modify (set_btnText_textContent
            (if loading then "Generating..." else "Generate Keywords")).

Definition error_html (message : string) : string :=
  "<div class=" ++ dq ++ "error-message" ++ dq ++ ">" ++ message ++ "</div>".

Definition displayError (message : string) : M unit :=
  write_results (error_html message) ;;;
  modify (set_exportControls_hidden true).

Definition empty_message : string :=
  "Received an empty response from the AI. Please try again.".

Definition failure_message : string :=
  "An error occurred while generating keywords. Please check the console for details and try again.".

(** How the awaited [generateContent] call settles: it resolves to a
    response whose [text] may be undefined, or it rejects. *)
Inductive response : Type :=
  | Resolved (text : option string)
  | Rejected (error : string).

(** The truthiness test [if (markdownContent)]. *)
Definition truthy (text : option string) : bool :=
  match text with
  | Some (String _ _) => true
  | _ => false
  end.

Section Handler.
Context `{Platform}.

(** [handleFormSubmit] up to the [await]: the result tells whether the
    request was issued and the handler is now suspended. *)
Definition handleFormSubmit_begin : M bool :=
  emit PreventDefault ;;;
  loading <- read isLoading ;;
  if loading then ret false
  else
    setLoading true ;;;
    modify (set_exportControls_hidden true) ;;;
    modify (fun st =>
              match placeholder_display st with
              | Some _ => set_placeholder_display (Some "none") st
              | None => st
              end) ;;;
    write_results "" ;;;
    prompt <- read (fun st => buildPrompt (form st)) ;;
    emit (GenerateContent "gemini-2.5-flash" prompt) ;;;
    ret true.

(** The [try] block from the point where the call has settled. *)
Definition after_await (r : response) : M unit :=
  match r with
  | Rejected error => throw error
  | Resolved markdownContent =>
      if truthy markdownContent then
        unsafeHtml <- lift (marked_parse
                              (match markdownContent with
                               | Some s => s
                               | None => ""
                               end)) ;;
        safeHtml <- lift (sanitize unsafeHtml) ;;
        write_results safeHtml ;;;
        modify (set_exportControls_hidden false)
      else displayError empty_message
  end.

(** [handleFormSubmit] from the [await] to its end. *)
Definition handleFormSubmit_resume (r : response) : M unit :=
  try_finally
    (try_catch (after_await r)
       (fun error =>
          emit (ConsoleError "Error generating keywords:" error) ;;;
          displayError failure_message))
    (setLoading false).

(** A whole run of the handler, [r] being how the request settles if one is
    issued. *)
Definition handleFormSubmit (r : response) : M unit :=
  suspended <- handleFormSubmit_begin ;;
  if suspended then handleFormSubmit_resume r else ret tt.

(** [n] further submit events in a row. *)
Fixpoint resubmit (n : nat) (st : ui) : ui * list effect :=
  match n with
  | O => (st, [])
  | S n' =>
      let '(_, st1, e1) := handleFormSubmit_begin st in
      let '(st2, e2) := resubmit n' st1 in (st2, (e1 ++ e2)%list)
  end.

End Handler.

(** ** Notions used to state the properties *)

(** Some character of [s] is a double quote, a comma or a line feed. *)
Fixpoint has_special (s : string) : bool :=
  match s with
  | "" => false
  | String c rest => (Csv.special c || has_special rest)%bool
  end.

(** The three characters after which a cell has to be quoted: the double
    quote, the comma and the line feed. *)
Definition csv_delimiters : list ascii := ["034"%char; ","%char; "010"%char].

(** The cell contains a double quote, a comma or a line feed. *)
Definition needs_quoting (cell : string) : bool :=
  existsb (fun c => existsb (Ascii.eqb c) csv_delimiters)
          (list_ascii_of_string cell).

(** The cell with every double quote written twice. *)
Definition quotes_doubled (cell : string) : string :=
  string_of_list_ascii
    (flat_map (fun c => if Ascii.eqb c "034"%char
                        then ["034"%char; "034"%char] else [c])
              (list_ascii_of_string cell)).

(** The text between two double quotes. *)
Definition in_quotes (s : string) : string :=
  String "034"%char (s ++ String "034"%char "").

(** Some element below [n] has the tag [t]. *)
Fixpoint occurs (t : string) (n : node) : bool :=
  match n with
  | Text _ => false
  | Elem _ kids => existsb (fun k => (has_tag t k || occurs t k)%bool) kids
  end.

Section Reference.
Context `{Platform}.

(** The tables the CSV extractor reads, in order: the next element sibling
    of each heading of the list whose text starts with the prefix, when that
    sibling is a table. *)
Definition adjacent_tables (headings : list located) : list located :=
  flat_map
    (fun heading =>
       if startsWith (textContent (el heading)) "Ad Group:" then
         match nextElementSibling heading with
         | Some table =>
             if String.eqb (tagName (el table)) "TABLE" then [table] else []
         | None => []
         end
       else [])
    headings.

Definition header_cells (table : located) : list string :=
  map cellText (querySelectorAll "th" table).

(** The body rows of a table that have at least one cell. *)
Definition body_rows (table : located) : list (list string) :=
  filter (fun rowData => (0 <? List.length rowData)%nat)
    (map (fun row => map cellText (querySelectorAll "td" row))
         (querySelectorAll_tbody_tr table)).

(** Setting the property named by a header to the text of its cell. *)
Definition row_step (o : object) (hc : string * located) : object :=
  obj_set (fst hc) (cellText (snd hc)) o.

(** The mapping from header to cell text of one row, headers and cells
    paired by position. *)
Definition rowObject (headers : list string) (cells : list located) : object :=
  fold_left row_step (combine headers cells) [].

(** The rows of the JSON export as the specification words them: of the
    table next to the Priority Keywords heading, the body rows with as many
    cells as there are headers, each as a mapping. *)
Definition priority_rows (container : node) : list object :=
  match priorityHeading container with
  | None => []
  | Some heading =>
      match nextElementSibling heading with
      | Some table =>
          if String.eqb (tagName (el table)) "TABLE" then
            let headers := header_cells table in
            map (fun row => rowObject headers (querySelectorAll "td" row))
              (filter
                 (fun row =>
                    (List.length (querySelectorAll "td" row)
                     =? List.length headers)%nat)
                 (querySelectorAll_tbody_tr table))
          else []
      | None => []
      end
  end.

End Reference.

(** The elements found below a list of sibling nodes, [under] telling
    whether their parent is or lies below a [tbody]. *)
Fixpoint below_siblings (under : bool) (l : list node) : list located :=
  match l with
  | [] => []
  | k :: rest =>
      (match k with
       | Elem _ _ => [{| el := k; following := rest; under_tbody := under |}]
       | Text _ => []
       end ++ descendants under k ++ below_siblings under rest)%list
  end.

(** Induction on a tree, the hypothesis holding for every child. *)
Fixpoint node_tree_ind (P : node -> Prop)
    (HT : forall s, P (Text s))
    (HE : forall t kids, Forall P kids -> P (Elem t kids))
    (n : node) : P n :=
  match n with
  | Text s => HT s
  | Elem t kids =>
      HE t kids
        ((fix all (l : list node) : Forall P l :=
            match l with
            | [] => Forall_nil P
            | k :: rest => Forall_cons k (node_tree_ind P HT HE k) (all rest)
            end) kids)
  end.

(** The page once a submission has passed the guard and waits. *)
Definition begun (st : ui) : ui :=
  mkUi true (form st) true false "Generating..." ""
       (match placeholder_display st with
        | Some _ => Some "none"
        | None => None
        end) true.

(** The page once the handler has finished with [html] in the results
    area and the export controls hidden or not. *)
Definition finished (html : string) (hidden : bool) (st : ui) : ui :=
  mkUi false (form st) false true "Generate Keywords" html
       (placeholder_display st) hidden.

Section Settling.
Context `{Platform}.

(** The settled request yields non-empty markdown that the renderer turns
    into HTML and the sanitizer into [safeHtml]. *)
Definition renders_to (r : response) (safeHtml : string) : Prop :=
  exists md u, r = Resolved (Some md) /\ md <> "" /\
    marked_parse md = Returns u /\ sanitize u = Returns safeHtml.

(** Handling the settled request throws [e]: the call was rejected, or the
    renderer or the sanitizer threw. *)
Definition fails_with (r : response) (e : string) : Prop :=
  r = Rejected e \/
  exists md, r = Resolved (Some md) /\ md <> "" /\
    (marked_parse md = Throws e \/
     exists u, marked_parse md = Returns u /\ sanitize u = Throws e).

End Settling.

(** ** Sample inputs *)

(** A stand-in for the libraries: markdown wrapped in a paragraph, a
    sanitizer that leaves its input as it is, [innerText] as [textContent],
    and a serializer that lists the keys of each object. *)
Definition sample_platform : Platform :=
  {| marked_parse := fun md => Returns ("<p>" ++ md ++ "</p>");
     sanitize := fun html => Returns html;
     innerText := textContent;
     JSON_stringify :=
       fun data =>
         String.concat "," (map (fun o => String.concat ";" (map fst o)) data)
  |}.

(** The inputs of the end-to-end scenario. *)
Definition sample_form : FormInputs :=
  {| service := "plumbing"; url := "example.com"; location := "Austin";
     goal := "Leads"; language := "English" |}.

(** The page before any submission. *)
Definition idle_page : ui :=
  {| isLoading := false; form := sample_form;
     generateBtn_disabled := false; spinner_hidden := true;
     btnText_textContent := "Generate Keywords";
     resultsContainer_innerHTML := "";
     placeholder_display := Some "";
     exportControls_hidden := true |}.

(** The page while a generation is in progress. *)
Definition busy_page : ui :=
  {| isLoading := true; form := sample_form;
     generateBtn_disabled := true; spinner_hidden := false;
     btnText_textContent := "Generating...";
     resultsContainer_innerHTML := "";
     placeholder_display := Some "none";
     exportControls_hidden := true |}.

Definition cell (tag text : string) : node := Elem tag [Text text].

Definition table_row (tag : string) (texts : list string) : node :=
  Elem "tr" (map (cell tag) texts).

Definition table (headers : list string) (rows : list (list string)) : node :=
  Elem "table"
    [Elem "thead" [table_row "th" headers];
     Elem "tbody" (map (table_row "td") rows)].

(** The rendered document of the end-to-end scenario: one ad group with a
    table of two rows, and the priority table with two rows of two cells. *)
Definition scenario_doc : node :=
  Elem "div"
    [Elem "h3" [Text "Keyword Ideas"];
     Elem "h4" [Text "Ad Group: Emergency"];
     Text nl;
     table ["Keyword"; "Monthly Search Volume"]
           [["emergency plumber"; "~1,200"]; ["24h plumber"; "~800"]];
     Elem "h3" [Text "Priority Keywords"];
     table ["Priority Keyword"; "Reason for Prioritization"]
           [["emergency plumber"; "High intent"]; ["24h plumber"; "Low cost"]]].

(** Two ad groups, the table of the first written as raw HTML without a
    header row. *)
Definition headerless_first_doc : node :=
  Elem "div"
    [Elem "h4" [Text "Ad Group: A"];
     Elem "table" [Elem "tbody" [table_row "td" ["x"]]];
     Elem "h4" [Text "Ad Group: B"];
     table ["K"] [["y"]]].

(** The headings at other levels than the exporters look for. *)
Definition other_levels_doc : node :=
  Elem "div"
    [Elem "h2" [Text "Ad Group: A"];
     table ["K"] [["y"]];
     Elem "h5" [Text "Priority Keywords"];
     table ["P"; "R"] [["a"; "b"]]].

(** A priority table whose second row lacks a cell. *)
Definition ragged_doc : node :=
  Elem "div"
    [Elem "h3" [Text "Priority Keywords"];
     Elem "table"
       [Elem "thead" [table_row "th" ["P"; "R"]];
        Elem "tbody" [table_row "td" ["a"; "b"]; table_row "td" ["c"]]]].

(** ** The page as events arrive

    The submit listener runs [handleFormSubmit] up to its [await]; when the
    request settles the rest of the handler runs.  Between the two the user
    may submit again or edit the form. *)

Inductive page_event : Type :=
  | Submit
  | Settle (r : response)
  | Edit (f : FormInputs).

(** The page state together with the number of requests issued and not yet
    settled. *)
Record page : Type := mkPage {
  view : ui;
  pending : nat
}.

Definition set_form (f : FormInputs) (st : ui) : ui :=
  mkUi (isLoading st) f (generateBtn_disabled st) (spinner_hidden st)
       (btnText_textContent st) (resultsContainer_innerHTML st)
       (placeholder_display st) (exportControls_hidden st).

Section Events.
Context `{Platform}.

(** One event; [None] when a settlement arrives with nothing pending, which
    cannot happen. *)
Definition page_step (e : page_event) (p : page)
  : option (page * list effect) :=
  match e with
  | Submit =>
      let '(res, st, eff) := handleFormSubmit_begin (view p) in
      Some ({| view := st;
               pending := match res with
                          | Returns true => S (pending p)
                          | _ => pending p
                          end |}, eff)
  | Settle r =>
      match pending p with
      | O => None
      | S n =>
          let '(_, st, eff) := handleFormSubmit_resume r (view p) in
          Some ({| view := st; pending := n |}, eff)
      end
  | Edit f => Some ({| view := set_form f (view p); pending := pending p |}, [])
  end.

Fixpoint page_run (events : list page_event) (p : page)
  : option (page * list effect) :=
  match events with
  | [] => Some (p, [])
  | e :: rest =>
      match page_step e p with
      | None => None
      | Some (p1, e1) =>
          match page_run rest p1 with
          | None => None
          | Some (p2, e2) => Some (p2, (e1 ++ e2)%list)
          end
      end
  end.

End Events.

(** The requests among the effects, as pairs of model and prompt. *)
Fixpoint requests (l : list effect) : list (string * string) :=
  match l with
  | [] => []
  | GenerateContent model contents :: rest => (model, contents) :: requests rest
  | _ :: rest => requests rest
  end.

(** ** downloadFile

    The part of the browser the function touches: the children of
    [document.body] by node identity, the store of object URLs, and the
    clicks on download links. *)

Record blob : Type := mkBlob {
  blob_content : string;
  blob_type : string
}.

(** A click on an anchor: its [download] attribute, what its [href]
    resolved to at that moment, and whether it was in the document. *)
Record click : Type := mkClick {
  click_download : string;
  click_target : option blob;
  click_attached : bool
}.

Record browser : Type := mkBrowser {
  body : list nat;
  next_node : nat;
  object_urls : list (nat * blob);
  next_url : nat;
  clicks : list click
}.

Fixpoint resolve (u : nat) (store : list (nat * blob)) : option blob :=
  match store with
  | [] => None
  | (k, b) :: rest => if (k =? u)%nat then Some b else resolve u rest
  end.

(** [parent.appendChild(n)]: [n] becomes the last child, leaving its former
    place if it had one. *)
Definition appendChild (n : nat) (children : list nat) : list nat :=
  (filter (fun k => negb (k =? n)%nat) children ++ [n])%list.

(** [parent.removeChild(n)], which throws when [n] is not a child. *)
Definition removeChild (n : nat) (children : list nat) : outcome (list nat) :=
  if existsb (fun k => (k =? n)%nat) children
  then Returns (filter (fun k => negb (k =? n)%nat) children)
  else Throws "NotFoundError".

Definition downloadFile (content fileName mimeType : string) (b : browser)
  : outcome browser :=
  let blob := mkBlob content mimeType in
  (* URL.createObjectURL(blob) *)
  let url := next_url b in
  let store := ((url, blob) :: object_urls b) in
  (* document.createElement('a'), then a.href = url, a.download = fileName *)
  let a := next_node b in
  (* document.body.appendChild(a) *)
  let children := appendChild a (body b) in
  (* a.click() *)
  let clicked :=
    mkClick fileName (resolve url store)
            (existsb (fun k => (k =? a)%nat) children) in
  (* document.body.removeChild(a) *)
  match removeChild a children with
  | Throws e => Throws e
  | Returns children' =>
      (* URL.revokeObjectURL(url) *)
      Returns
        (mkBrowser children' (S a)
           (filter (fun kb => negb (fst kb =? url)%nat) store) (S url)
           (clicks b ++ [clicked])%list)
  end.

(** Node and URL identities handed out so far are below the counters. *)
Definition browser_ok (b : browser) : Prop :=
  Forall (fun k => k < next_node b) (body b) /\
  Forall (fun kb => fst kb < next_url b) (object_urls b).

(** ** Further notions used to state the properties *)

Fixpoint count_char (c : ascii) (s : string) : nat :=
  match s with
  | "" => 0
  | String d rest => (if Ascii.eqb d c then 1 else 0) + count_char c rest
  end.

Definition first_char (s : string) : option ascii :=
  match s with
  | "" => None
  | String c _ => Some c
  end.

Fixpoint last_char (s : string) : option ascii :=
  match s with
  | "" => None
  | String c "" => Some c
  | String _ rest => last_char rest
  end.

(** Neither the first nor the last character is white space. *)
Definition trimmed (s : string) : bool :=
  match first_char s, last_char s with
  | Some c, Some d => negb (is_space c) && negb (is_space d)
  | _, _ => true
  end.

(** The page with the submit button never pressed. *)
Definition fresh_page (st : ui) : page := {| view := st; pending := 0 |}.

(** A browser with a page of three nodes, one live object URL and no click
    yet. *)
Definition sample_browser : browser :=
  {| body := [0; 1; 2]; next_node := 3;
     object_urls := [(0, mkBlob "earlier" "text/plain")]; next_url := 1;
     clicks := [] |}.

(** Inputs that differ from [sample_form] in the location only. *)
Definition other_form : FormInputs :=
  {| service := "plumbing"; url := "example.com"; location := "Dallas";
     goal := "Leads"; language := "English" |}.

(** Headings with the texts the exporters look for at levels they do not
    look at, each followed by a table, beside headings at the levels they
    do look at. *)
Definition mixed_levels_doc : node :=
  Elem "div"
    [Elem "h2" [Text "Ad Group: A"];
     table ["K"] [["under h2"]];
     Elem "h4" [Text "Ad Group: B"];
     table ["K"] [["under h4"]];
     Elem "h4" [Text "Priority Keywords"];
     table ["P"] [["under h4"]];
     Elem "h3" [Text "Priority Keywords"];
     table ["P"; "R"] [["a"; "b"]]].

(** A priority table with the same header twice. *)
Definition repeated_header_doc : node :=
  Elem "div"
    [Elem "h3" [Text "Priority Keywords"];
     table ["P"; "R"; "P"] [["a"; "b"; "c"]]].

(** The settlements among the events. *)
Definition settled (events : list page_event) : nat :=
  List.length
    (filter (fun e => match e with Settle _ => true | _ => false end) events).

(** The flag is set exactly while one request is pending, and then the
    indicators show it. *)
Definition page_ok (p : page) : Prop :=
  pending p = (if isLoading (view p) then 1 else 0) /\
  (isLoading (view p) = true ->
   generateBtn_disabled (view p) = true /\ spinner_hidden (view p) = false /\
   btnText_textContent (view p) = "Generating...").

(** The string has no line feed, as the value of a one-line text field or
    of a select option. *)
Definition one_line (s : string) : bool :=
  (count_char newline_char s =? 0)%nat.

Definition one_line_inputs (f : FormInputs) : Prop :=
  one_line (service f) = true /\ one_line (url f) = true /\
  one_line (location f) = true /\ one_line (goal f) = true /\
  one_line (language f) = true.

(** A session: a submit, a second one while waiting, an edit of the form,
    the settlement, and a new submit. *)
Definition sample_events : list page_event :=
  [Submit; Submit; Edit other_form; Settle (Resolved (Some "# Plumbing"));
   Submit].

Definition sample_session : page * list effect :=
  Eval vm_compute in
    match @page_run sample_platform sample_events (fresh_page idle_page) with
    | Some x => x
    | None => (fresh_page idle_page, [])
    end.

(** The page after an earlier successful generation. *)
Definition used_page : ui := finished "<p>old</p>" false idle_page.

(** The keyword table of [scenario_doc], as the extractor meets it. *)
Definition scenario_ad_table : located :=
  {| el := table ["Keyword"; "Monthly Search Volume"]
                 [["emergency plumber"; "~1,200"]; ["24h plumber"; "~800"]];
     following :=
       [Elem "h3" [Text "Priority Keywords"];
        table ["Priority Keyword"; "Reason for Prioritization"]
              [["emergency plumber"; "High intent"];
               ["24h plumber"; "Low cost"]]];
     under_tbody := false |}.

(** Three cells of a row, outside any document. *)
Definition sample_cells : list located :=
  map (fun n => {| el := n; following := []; under_tbody := false |})
      [cell "td" "a"; cell "td" "b"; cell "td" "c"].

(** * Properties *)

(** ** Strings *)

Lemma sapp_assoc (a b c : string) : (a ++ b) ++ c = a ++ b ++ c.
Proof. induction a as [|x a IH]; simpl; [reflexivity | now rewrite IH]. Qed.

Lemma sapp_nil_r (a : string) : a ++ "" = a.
Proof. induction a as [|x a IH]; simpl; [reflexivity | now rewrite IH]. Qed.

Lemma startsWith_spec (s p : string) :
  startsWith s p = true <-> exists post, s = p ++ post.
Proof.
  revert s. induction p as [|c p IH]; intro s; simpl.
  - split; [intros _; now exists s | reflexivity].
  - destruct s as [|d s].
    + split; [discriminate | intros [post Hp]; discriminate].
    + rewrite andb_true_iff, IH, Ascii.eqb_eq. split.
      * intros [-> [post ->]]. now exists post.
      * intros [post Hp]. injection Hp as -> ->.
        split; [reflexivity | now exists post].
Qed.

Lemma includes_spec (s needle : string) :
  includes s needle = true <-> exists pre post, s = pre ++ needle ++ post.
Proof.
  induction s as [|c s IH].
  - cbn [includes]. rewrite orb_false_r, startsWith_spec. split.
    + intros [post Hp]. now exists "", post.
    + intros [[|d pre] [post Hp]]; [now exists post | discriminate].
  - cbn [includes]. rewrite orb_true_iff, startsWith_spec, IH. split.
    + intros [[post Hp] | (pre & post & ->)].
      * now exists "", post.
      * now exists (String c pre), post.
    + intros [[|d pre] [post Hp]].
      * left. now exists post.
      * right. injection Hp as -> ->. now exists pre, post.
Qed.

Lemma includes_refl (s : string) : includes s s = true.
Proof. apply includes_spec. exists "", "". now rewrite sapp_nil_r. Qed.

Lemma includes_app (a b needle : string) :
  includes a needle = true \/ includes b needle = true ->
  includes (a ++ b) needle = true.
Proof.
  rewrite !includes_spec. intros [(pre & post & ->) | (pre & post & ->)].
  - exists pre, (post ++ b). now rewrite !sapp_assoc.
  - exists (a ++ pre), post. now rewrite !sapp_assoc.
Qed.

Lemma includes_join (sep needle : string) (l : list string) :
  (exists x, In x l /\ includes x needle = true) ->
  includes (join sep l) needle = true.
Proof.
  induction l as [|a l IH]; intros (x & Hin & Hx); [destruct Hin|].
  destruct l as [|b l].
  - destruct Hin as [-> | []]. exact Hx.
  - change (join sep (a :: b :: l)) with (a ++ sep ++ join sep (b :: l)).
    apply includes_app. destruct Hin as [-> | Hin]; [now left|].
    right. apply includes_app. right. apply IH. now exists x.
Qed.

(** ** CSV escaping and reading *)

Module CsvFacts.
Import Csv.

Lemma search_nonneg (s : string) : (search s >=? 0)%Z = has_special s.
Proof.
  assert (Hboth : (has_special s = true -> (0 <= search s)%Z) /\
                  (has_special s = false -> search s = (-1)%Z)).
  { induction s as [|c s [IHt IHf]]; simpl.
    - split; [discriminate | reflexivity].
    - destruct (special c); simpl.
      + split; [lia | discriminate].
      + split; intro Hs.
        * specialize (IHt Hs). destruct (search s <? 0)%Z eqn:E; lia.
        * rewrite (IHf Hs). reflexivity. }
  destruct Hboth as [Ht Hf]. destruct (has_special s).
  - specialize (Ht eq_refl). lia.
  - rewrite (Hf eq_refl). reflexivity.
Qed.

Lemma has_special_replaceQuotes (s : string) :
  has_special (replaceQuotes s) = has_special s.
Proof.
  induction s as [|c s IH]; simpl; [reflexivity|].
  destruct (Ascii.eqb_spec c quote_char) as [->|Hc]; simpl.
  - reflexivity.
  - now rewrite IH.
Qed.

Lemma special_false (c : ascii) :
  special c = false ->
  Ascii.eqb c quote_char = false /\ Ascii.eqb c comma_char = false /\
  Ascii.eqb c newline_char = false.
Proof.
  unfold special. intro Hc. apply orb_false_iff in Hc as [Hc H3].
  apply orb_false_iff in Hc as [H1 H2]. auto.
Qed.

Lemma replaceQuotes_plain (s : string) :
  has_special s = false -> replaceQuotes s = s.
Proof.
  induction s as [|c s IH]; simpl; [reflexivity|].
  intro Hs. apply orb_false_iff in Hs as [Hc Hs].
  destruct (special_false c Hc) as (-> & _). now rewrite (IH Hs).
Qed.

Lemma escapeCell_shape (cell : string) :
  escapeCell cell =
  if has_special cell then dq ++ replaceQuotes cell ++ dq
  else replaceQuotes cell.
Proof.
  unfold escapeCell. cbv zeta.
  now rewrite search_nonneg, has_special_replaceQuotes.
Qed.

Lemma bare_run (s : string) : forall fld row rows rest,
  has_special s = false ->
  parse_go InBare fld row rows (s ++ rest) =
  parse_go InBare (fld ++ s) row rows rest.
Proof.
  induction s as [|c s IH]; intros fld row rows rest Hs; simpl.
  - now rewrite sapp_nil_r.
  - simpl in Hs. apply orb_false_iff in Hs as [Hc Hs].
    destruct (special_false c Hc) as (-> & -> & ->).
    rewrite (IH _ _ _ _ Hs), sapp_assoc. reflexivity.
Qed.

Lemma bare_end (fld : string) row rows rest :
  at_separator rest = true ->
  parse_go InBare fld row rows rest = after_field fld row rows rest.
Proof.
  destruct rest as [|c rest]; simpl; [reflexivity|]. intro Hsep.
  destruct (Ascii.eqb_spec c quote_char) as [->|Hq]; [discriminate Hsep|].
  destruct (Ascii.eqb c comma_char); [reflexivity|].
  destruct (Ascii.eqb c newline_char); [reflexivity|discriminate Hsep].
Qed.

Lemma start_end row rows rest :
  at_separator rest = true ->
  parse_go FieldStart "" row rows rest = after_field "" row rows rest.
Proof.
  destruct rest as [|c rest]; simpl; [reflexivity|]. intro Hsep.
  destruct (Ascii.eqb_spec c quote_char) as [->|Hq]; [discriminate Hsep|].
  destruct (Ascii.eqb c comma_char); [reflexivity|].
  destruct (Ascii.eqb c newline_char); [reflexivity|discriminate Hsep].
Qed.

Lemma quote_end (fld : string) row rows rest :
  at_separator rest = true ->
  parse_go QuoteSeen fld row rows rest = after_field fld row rows rest.
Proof.
  destruct rest as [|c rest]; simpl; [reflexivity|]. intro Hsep.
  destruct (Ascii.eqb_spec c quote_char) as [->|Hq]; [discriminate Hsep|].
  reflexivity.
Qed.

Lemma quoted_run (s : string) : forall fld row rows rest,
  parse_go InQuoted fld row rows (replaceQuotes s ++ String quote_char rest) =
  parse_go QuoteSeen (fld ++ s) row rows rest.
Proof.
  induction s as [|c s IH]; intros fld row rows rest.
  - simpl. now rewrite sapp_nil_r.
  - cbn [replaceQuotes].
    destruct (Ascii.eqb_spec c quote_char) as [->|Hc].
    + cbn [String.append parse_go]. rewrite Ascii.eqb_refl.
      rewrite IH. unfold dq. now rewrite sapp_assoc.
    + apply Ascii.eqb_neq in Hc. cbn [String.append parse_go].
      rewrite Hc, IH, sapp_assoc. reflexivity.
Qed.

(** Reading an escaped cell up to the separator that follows gives back the
    cell. *)
Lemma read_cell (cell : string) row rows rest :
  at_separator rest = true ->
  parse_go FieldStart "" row rows (escapeCell cell ++ rest) =
  after_field cell row rows rest.
Proof.
  intro Hsep. rewrite escapeCell_shape.
  destruct (has_special cell) eqn:Hsp.
  - unfold dq. cbn [String.append parse_go]. rewrite Ascii.eqb_refl.
    rewrite sapp_assoc. cbn [String.append].
    rewrite quoted_run. now apply quote_end.
  - rewrite (replaceQuotes_plain _ Hsp).
    destruct cell as [|c cell]; simpl.
    + now apply start_end.
    + simpl in Hsp. apply orb_false_iff in Hsp as [Hc Hs].
      destruct (special_false c Hc) as (-> & -> & ->).
      rewrite (bare_run _ _ _ _ _ Hs). simpl. now apply bare_end.
Qed.

Lemma csvRow_one (c : string) : csvRow [c] = escapeCell c.
Proof. reflexivity. Qed.

Lemma csvRow_more (c c2 : string) (cs : list string) :
  csvRow (c :: c2 :: cs) = escapeCell c ++ String comma_char (csvRow (c2 :: cs)).
Proof. reflexivity. Qed.

Lemma csvContent_one (r : list string) : csvContent [r] = csvRow r.
Proof. reflexivity. Qed.

Lemma csvContent_more (r r2 : list string) (d : list (list string)) :
  csvContent (r :: r2 :: d) =
  csvRow r ++ String newline_char (csvContent (r2 :: d)).
Proof. reflexivity. Qed.

Lemma after_comma (fld : string) row rows rest :
  after_field fld row rows (String comma_char rest) =
  parse_go FieldStart "" (row ++ [fld])%list rows rest.
Proof. reflexivity. Qed.

Lemma read_row (cs : list string) : forall acc rows rest,
  cs <> [] ->
  parse_go FieldStart "" acc rows (csvRow cs ++ rest) =
  match rest with
  | "" => Some (rows ++ [acc ++ cs])%list
  | String c rest' =>
      if Ascii.eqb c newline_char
      then parse_go FieldStart "" [] (rows ++ [acc ++ cs])%list rest'
      else parse_go FieldStart "" acc rows (csvRow cs ++ rest)
  end.
Proof.
  induction cs as [|c cs IH]; intros acc rows rest Hne; [congruence|].
  destruct cs as [|c2 cs].
  - rewrite csvRow_one. destruct rest as [|d rest].
    + now rewrite read_cell.
    + destruct (Ascii.eqb_spec d newline_char) as [->|Hd]; [|reflexivity].
      now rewrite read_cell.
  - rewrite csvRow_more, sapp_assoc. cbn [String.append].
    rewrite read_cell, after_comma by reflexivity.
    rewrite IH by discriminate. rewrite <- !app_assoc. cbn [app].
    destruct rest as [|d rest]; [reflexivity|].
    destruct (Ascii.eqb d newline_char); reflexivity.
Qed.

Lemma read_rows (data : list (list string)) : forall rows,
  data <> [] -> Forall (fun row => row <> []) data ->
  parse_go FieldStart "" [] rows (csvContent data) = Some (rows ++ data)%list.
Proof.
  induction data as [|r data IH]; intros rows Hne Hall; [congruence|].
  inversion Hall as [|? ? Hr Hrest]; subst.
  destruct data as [|r2 data].
  - rewrite csvContent_one, <- (sapp_nil_r (csvRow r)), read_row by assumption.
    reflexivity.
  - rewrite csvContent_more, read_row by assumption.
    rewrite Ascii.eqb_refl, IH by (assumption || discriminate).
    now rewrite <- app_assoc.
Qed.

End CsvFacts.

(** The test of the script picks the cells with one of the three
    delimiters, and its replacement doubles the double quotes. *)
Lemma has_special_needs_quoting (cell : string) :
  has_special cell = needs_quoting cell.
Proof.
  unfold needs_quoting.
  induction cell as [|c cell IH]; [reflexivity|].
  cbn [has_special list_ascii_of_string existsb]. rewrite IH. f_equal.
  unfold Csv.special, csv_delimiters, quote_char, comma_char, newline_char.
  cbn [existsb]. now rewrite orb_false_r, orb_assoc.
Qed.

Lemma replaceQuotes_quotes_doubled (cell : string) :
  Csv.replaceQuotes cell = quotes_doubled cell.
Proof.
  unfold quotes_doubled.
  induction cell as [|c cell IH]; [reflexivity|].
  cbn [Csv.replaceQuotes list_ascii_of_string flat_map]. rewrite IH.
  unfold quote_char. destruct (Ascii.eqb c "034"); reflexivity.
Qed.

(** Claim C2.  Escaping a cell doubles every double quote and then encloses
    the result in double quotes exactly when the cell holds a double quote,
    a comma or a line feed, and leaves it bare otherwise; reading the
    escaped cell back gives the cell, and reading back a whole exported
    table, no row of which is empty, gives the table. *)
Theorem csv_escaping_round_trip (cell : string) (data : list (list string)) :
  Csv.escapeCell cell =
    (if needs_quoting cell then in_quotes (quotes_doubled cell)
     else quotes_doubled cell) /\
  Csv.parse_csv (Csv.escapeCell cell) = Some [[cell]] /\
  (data <> [] -> Forall (fun row => row <> []) data ->
   Csv.parse_csv (Csv.csvContent data) = Some data).
Proof.
  split; [|split].
  - rewrite CsvFacts.escapeCell_shape, has_special_needs_quoting,
      replaceQuotes_quotes_doubled.
    destruct (needs_quoting cell); reflexivity.
  - unfold Csv.parse_csv.
    rewrite <- (sapp_nil_r (Csv.escapeCell cell)), CsvFacts.read_cell;
      reflexivity.
  - intros Hne Hall. unfold Csv.parse_csv.
    now rewrite CsvFacts.read_rows.
Qed.

(** ** The prompt *)

Ltac prompt_line line :=
  apply includes_join; exists line;
  split; [unfold promptLines; simpl; tauto |].

(** Claim C6.  The prompt contains each of the five input values as it is
    and the three section headings. *)
Theorem buildPrompt_contents (f : FormInputs) :
  includes (buildPrompt f) (service f) = true /\
  includes (buildPrompt f) (url f) = true /\
  includes (buildPrompt f) (location f) = true /\
  includes (buildPrompt f) (goal f) = true /\
  includes (buildPrompt f) (language f) = true /\
  includes (buildPrompt f) "Keyword Ideas" = true /\
  includes (buildPrompt f) "Priority Keywords" = true /\
  includes (buildPrompt f) "Negative Keywords" = true.
Proof.
  unfold buildPrompt. repeat split.
  - prompt_line ("- Service(s): " ++ service f).
    apply includes_app. right. apply includes_refl.
  - prompt_line ("- Website URL: " ++ url f).
    apply includes_app. right. apply includes_refl.
  - prompt_line ("- Location(s): " ++ location f).
    apply includes_app. right. apply includes_refl.
  - prompt_line ("- Campaign Goal: " ++ goal f).
    apply includes_app. right. apply includes_refl.
  - prompt_line ("- Language(s): " ++ language f).
    apply includes_app. right. apply includes_refl.
  - prompt_line "### Keyword Ideas". reflexivity.
  - prompt_line "### Priority Keywords". reflexivity.
  - prompt_line "### Negative Keywords". reflexivity.
Qed.

(** ** The document and its selectors *)

Lemma descendants_Elem (under : bool) (t : string) (kids : list node) :
  descendants under (Elem t kids) =
  below_siblings (under || String.eqb t "tbody") kids.
Proof.
  cbn [descendants]. generalize (under || String.eqb t "tbody")%bool as u.
  intro u. induction kids as [|k rest IH]; [reflexivity|].
  cbn [below_siblings]. rewrite <- IH. reflexivity.
Qed.

Lemma filter_tag_absent (t : string) (n : node) :
  occurs t n = false ->
  forall under,
    filter (fun x => has_tag t (el x)) (descendants under n) = [].
Proof.
  induction n as [s | t' kids IH] using node_tree_ind; intros Hocc under;
    [reflexivity|].
  rewrite descendants_Elem.
  generalize (under || String.eqb t' "tbody")%bool as u. intro u.
  cbn [occurs] in Hocc.
  induction kids as [|k rest IHk]; [reflexivity|].
  cbn [existsb] in Hocc. apply orb_false_iff in Hocc as [Hk Hrest].
  apply orb_false_iff in Hk as [Htag Hbelow].
  inversion IH as [|? ? IHhead IHtail]; subst.
  cbn [below_siblings]. rewrite !filter_app.
  rewrite (IHhead Hbelow u), (IHk IHtail Hrest).
  destruct k as [tk ks | s]; [|reflexivity].
  cbn [filter el]. rewrite Htag. reflexivity.
Qed.

Lemma querySelectorAll_absent (t : string) (scope : located) :
  occurs t (el scope) = false -> querySelectorAll t scope = [].
Proof. intro Hocc. unfold querySelectorAll. now apply filter_tag_absent. Qed.

(** Every element a type selector finds has that tag. *)
Lemma querySelectorAll_tag (t : string) (scope x : located) :
  In x (querySelectorAll t scope) -> has_tag t (el x) = true.
Proof. unfold querySelectorAll. intro Hin. now apply filter_In in Hin. Qed.

(** ** Plain objects *)

Lemma obj_get_put_same (k v : string) (o : object) :
  obj_get k (obj_put k v o) = Some v.
Proof.
  induction o as [|[k' v'] o IH]; cbn [obj_put obj_get].
  - now rewrite String.eqb_refl.
  - destruct (String.eqb_spec k' k) as [->|Hne]; cbn [obj_get].
    + now rewrite String.eqb_refl.
    + apply String.eqb_neq in Hne. now rewrite Hne.
Qed.

Lemma obj_get_put_other (k k' v : string) (o : object) :
  k <> k' -> obj_get k (obj_put k' v o) = obj_get k o.
Proof.
  intro Hne. induction o as [|[k2 v2] o IH]; cbn [obj_put obj_get].
  - apply not_eq_sym, String.eqb_neq in Hne. now rewrite Hne.
  - destruct (String.eqb_spec k2 k') as [->|Hne2]; cbn [obj_get].
    + apply not_eq_sym, String.eqb_neq in Hne. now rewrite Hne.
    + now rewrite IH.
Qed.

(** ** The exporters *)

Section ExporterFacts.
Context `{Platform}.

Lemma csv_visit_rows (rows : list located) : forall data,
  fold_left csv_visit_row rows data =
  (data ++ filter (fun rowData => (0 <? List.length rowData)%nat)
             (map (fun row => map cellText (querySelectorAll "td" row)) rows))%list.
Proof.
  induction rows as [|row rows IH]; intro data; cbn [fold_left map filter].
  - now rewrite app_nil_r.
  - rewrite IH. unfold csv_visit_row. cbv zeta.
    destruct (0 <? List.length (map cellText (querySelectorAll "td" row)))%nat.
    + now rewrite <- app_assoc.
    + reflexivity.
Qed.

Lemma csv_visit_table_first (table : located) (data : list (list string)) :
  csv_visit_table table (data, []) =
  ((data ++ header_cells table :: body_rows table)%list, header_cells table).
Proof.
  unfold csv_visit_table. cbn [List.length Nat.eqb].
  rewrite csv_visit_rows, <- app_assoc. reflexivity.
Qed.

Lemma csv_visit_table_later (table : located) (data : list (list string))
    (headers : list string) :
  headers <> [] ->
  csv_visit_table table (data, headers) =
  ((data ++ body_rows table)%list, headers).
Proof.
  intro Hne. unfold csv_visit_table.
  destruct headers as [|h hs]; [congruence|]. cbn [List.length Nat.eqb].
  now rewrite csv_visit_rows.
Qed.

(** The loop over the headings reads the tables next to the headings with
    the prefix, and nothing else. *)
Lemma csv_visit_headings (headings : list located) :
  forall st,
    fold_left csv_visit_heading headings st =
    fold_left (fun st table => csv_visit_table table st)
              (adjacent_tables headings) st.
Proof.
  induction headings as [|h hs IH]; intro st; [reflexivity|].
  cbn [fold_left]. unfold adjacent_tables. cbn [flat_map].
  rewrite fold_left_app. fold (adjacent_tables hs). rewrite IH.
  f_equal. unfold csv_visit_heading.
  destruct (startsWith (textContent (el h)) "Ad Group:"); [|reflexivity].
  destruct (nextElementSibling h) as [table|]; [|reflexivity].
  destruct (String.eqb (tagName (el table)) "TABLE"); reflexivity.
Qed.

Lemma csv_visit_tables_later (tables : list located) :
  forall data headers,
    headers <> [] ->
    fold_left (fun st table => csv_visit_table table st) tables (data, headers) =
    ((data ++ flat_map body_rows tables)%list, headers).
Proof.
  induction tables as [|t ts IH]; intros data headers Hne;
    cbn [fold_left flat_map].
  - now rewrite app_nil_r.
  - rewrite (csv_visit_table_later t data headers Hne), (IH _ _ Hne).
    now rewrite <- app_assoc.
Qed.

(** When the first table read has header cells, they are read once and make
    the first row; the body rows of all the tables read follow in order. *)
Lemma csv_data_headed (container : node) (t : located) (ts : list located) :
  adjacent_tables (querySelectorAll "h4" (at_root container)) = t :: ts ->
  header_cells t <> [] ->
  csv_data container = header_cells t :: flat_map body_rows (t :: ts).
Proof.
  intros Htables Hne. unfold csv_data.
  rewrite csv_visit_headings, Htables. cbn [fold_left].
  rewrite csv_visit_table_first, (csv_visit_tables_later ts _ _ Hne).
  reflexivity.
Qed.

Lemma csv_data_no_table (container : node) :
  adjacent_tables (querySelectorAll "h4" (at_root container)) = [] ->
  csv_data container = [].
Proof.
  intro Htables. unfold csv_data. now rewrite csv_visit_headings, Htables.
Qed.

(** Claim C4.  When fewer than two rows have accumulated, the CSV export
    shows the notice and downloads nothing. *)
Theorem csv_refuses_below_two_rows (container : node) :
  List.length (csv_data container) < 2 ->
  exportKeywordsToCSV container = [Alert "No keyword data found to export."] /\
  forall content fileName mimeType,
    ~ In (DownloadFile content fileName mimeType) (exportKeywordsToCSV container).
Proof.
  intro Hlen. unfold exportKeywordsToCSV. cbv zeta.
  destruct (Nat.leb_spec (List.length (csv_data container)) 1) as [_|Hgt];
    [|lia].
  split; [reflexivity|]. intros c f m [Hd|[]]. discriminate.
Qed.

(** The same outcome read off the document: no table next to a matching
    heading, or header cells and not one body row with a cell. *)
Lemma csv_refuses_without_table (container : node) :
  adjacent_tables (querySelectorAll "h4" (at_root container)) = [] ->
  exportKeywordsToCSV container = [Alert "No keyword data found to export."].
Proof.
  intro Htables. unfold exportKeywordsToCSV.
  now rewrite (csv_data_no_table container Htables).
Qed.

Lemma csv_refuses_without_data_rows (container : node) (t : located)
    (ts : list located) :
  adjacent_tables (querySelectorAll "h4" (at_root container)) = t :: ts ->
  header_cells t <> [] ->
  flat_map body_rows (t :: ts) = [] ->
  exportKeywordsToCSV container = [Alert "No keyword data found to export."].
Proof.
  intros Htables Hne Hrows. unfold exportKeywordsToCSV.
  now rewrite (csv_data_headed container t ts Htables Hne), Hrows.
Qed.

(** Under the guard on the cell count every indexed cell exists: filling
    the row never throws and pairs headers and cells by position. *)
Lemma fill_row_paired (headers : list string) :
  forall (seen cells : list located) (o : object),
    List.length headers <= List.length cells ->
    fill_row headers (List.length seen) (seen ++ cells) o =
    Returns (fold_left row_step (combine headers cells) o).
Proof.
  induction headers as [|h hs IH]; intros seen cells o Hlen; [reflexivity|].
  destruct cells as [|c cs]; [simpl in Hlen; lia|].
  cbn [fill_row combine fold_left].
  rewrite nth_error_app2, Nat.sub_diag by lia. cbn [nth_error].
  specialize (IH (seen ++ [c])%list cs (obj_set h (cellText c) o)).
  rewrite length_app, Nat.add_1_r, <- app_assoc in IH. cbn [app] in IH.
  apply IH. simpl in Hlen. lia.
Qed.

Lemma json_visit_rows (headers : list string) (rows : list located) :
  forall data,
    fold_left (json_visit_row headers) rows (Returns data) =
    Returns
      (data ++
       map (fun row => rowObject headers (querySelectorAll "td" row))
         (filter (fun row => (List.length (querySelectorAll "td" row)
                              =? List.length headers)%nat) rows))%list.
Proof.
  induction rows as [|row rows IH]; intro data; cbn [fold_left filter map].
  - now rewrite app_nil_r.
  - unfold json_visit_row at 2. cbv zeta.
    destruct (Nat.eqb_spec (List.length (querySelectorAll "td" row))
                           (List.length headers)) as [Heq|Hne].
    + pose proof (fill_row_paired headers [] (querySelectorAll "td" row) [])
        as Hfill.
      cbn [List.length app] in Hfill.
      rewrite Hfill by (rewrite Heq; apply le_n).
      rewrite IH. cbn [map]. now rewrite <- app_assoc.
    + apply IH.
Qed.

Lemma fold_step_other (h : string) (l : list (string * located)) :
  forall o, ~ In h (map fst l) ->
    obj_get h (fold_left row_step l o) = obj_get h o.
Proof.
  induction l as [|[k c] l IH]; intros o Hnot; [reflexivity|].
  cbn [fold_left]. rewrite IH by (intro Hin; apply Hnot; now right).
  unfold row_step, obj_set. cbn [fst snd].
  destruct (String.eqb k "__proto__"); [reflexivity|].
  apply obj_get_put_other. intros ->. apply Hnot. now left.
Qed.

Lemma in_combine_fst (h : string) (hs : list string) :
  forall cs : list located, In h (map fst (combine hs cs)) -> In h hs.
Proof.
  induction hs as [|a hs IH]; intros [|b cs] Hin; try destruct Hin.
  - now left.
  - right. now apply (IH cs).
Qed.

(** With distinct headers, none of them [__proto__], the object of a row
    maps the header at each position to the text of the cell there. *)
Lemma rowObject_lookup (headers : list string) (cells : list located)
    (i : nat) (h : string) (c : located) :
  NoDup headers -> ~ In "__proto__" headers ->
  nth_error headers i = Some h -> nth_error cells i = Some c ->
  obj_get h (rowObject headers cells) = Some (cellText c).
Proof.
  unfold rowObject. generalize (@nil (string * string)) as o.
  revert cells i.
  induction headers as [|k hs IH]; intros cells i o Hnd Hproto Hh Hc.
  - destruct i; discriminate Hh.
  - destruct cells as [|c0 cs]; [destruct i; discriminate Hc|].
    inversion Hnd as [|? ? Hk Hnd']; subst.
    cbn [combine fold_left]. destruct i as [|i]; cbn [nth_error] in Hh, Hc.
    + injection Hh as ->. injection Hc as ->.
      rewrite fold_step_other.
      * unfold row_step, obj_set. cbn [fst snd].
        destruct (String.eqb_spec h "__proto__") as [->|_].
        -- exfalso. apply Hproto. now left.
        -- apply obj_get_put_same.
      * intro Hin. apply Hk. now apply (in_combine_fst h hs cs).
    + apply (IH cs i); try assumption. intro Hin. apply Hproto. now right.
Qed.


(** Without an [h4] element in the document the CSV export finds no row,
    and without an [h3] element the JSON export finds none, whatever
    headings of other levels and tables the document has. *)
Theorem other_heading_levels_ignored (container : node) :
  (occurs "h4" container = false ->
   exportKeywordsToCSV container = [Alert "No keyword data found to export."]) /\
  (occurs "h3" container = false ->
   exportPriorityKeywordsToJSON container =
     Returns [Alert "No priority keywords found to export."]).
Proof.
  split; intro Hocc.
  - unfold exportKeywordsToCSV, csv_data.
    rewrite (querySelectorAll_absent "h4" (at_root container) Hocc).
    reflexivity.
  - unfold exportPriorityKeywordsToJSON, priorityHeading.
    rewrite (querySelectorAll_absent "h3" (at_root container) Hocc).
    reflexivity.
Qed.

End ExporterFacts.

(** Claim C3.  On a document whose first ad-group table has no header cell,
    the header cells are read a second time from the next table: the first
    output row is empty and the headers of the second table make the third
    row. *)
Theorem headers_read_again_after_headerless_table :
  @csv_data sample_platform headerless_first_doc = [[]; ["x"]; ["K"]; ["y"]].
Proof. vm_compute. reflexivity. Qed.

(** ** The submit handler *)

Section HandlerFacts.
Context `{Platform}.

Lemma begin_busy (st : ui) :
  isLoading st = true ->
  handleFormSubmit_begin st = (Returns false, st, [PreventDefault]).
Proof.
  intro Hl. unfold handleFormSubmit_begin, bind, emit, read.
  rewrite Hl. reflexivity.
Qed.

Lemma run_busy (r : response) (st : ui) :
  isLoading st = true ->
  handleFormSubmit r st = (Returns tt, st, [PreventDefault]).
Proof.
  intro Hl. unfold handleFormSubmit, bind. rewrite (begin_busy st Hl).
  reflexivity.
Qed.

Lemma begin_idle (st : ui) :
  isLoading st = false ->
  handleFormSubmit_begin st =
    (Returns true, begun st,
     [PreventDefault; InnerHTML "";
      GenerateContent "gemini-2.5-flash" (buildPrompt (form st))]).
Proof.
  intro Hl. destruct st as [l f d s t h [p|] x]; simpl in Hl; subst l;
    reflexivity.
Qed.

(** The three ways the handler ends once the request has settled. *)
Lemma resume_cases (r : response) (st : ui) :
  (exists safe, renders_to r safe /\
     handleFormSubmit_resume r st =
       (Returns tt, finished safe false st, [InnerHTML safe])) \/
  (exists text, r = Resolved text /\ truthy text = false /\
     handleFormSubmit_resume r st =
       (Returns tt, finished (error_html empty_message) true st,
        [InnerHTML (error_html empty_message)])) \/
  (exists e, fails_with r e /\
     handleFormSubmit_resume r st =
       (Returns tt, finished (error_html failure_message) true st,
        [ConsoleError "Error generating keywords:" e;
         InnerHTML (error_html failure_message)])).
Proof.
  destruct st as [l f d s t h p x].
  unfold handleFormSubmit_resume, try_finally, try_catch, after_await, bind, lift.
  destruct r as [[[|c md]|]|e].
  - right; left. exists (Some ""). repeat split.
  - cbn. destruct (marked_parse (String c md)) as [u|e] eqn:Hm; cbn.
    + destruct (sanitize u) as [safe|e] eqn:Hs; cbn.
      * left. exists safe. split; [|reflexivity].
        exists (String c md), u. repeat split; try assumption. discriminate.
      * right; right. exists e. split; [|reflexivity].
        right. exists (String c md). repeat split; [discriminate|].
        right. now exists u.
    + right; right. exists e. split; [|reflexivity].
      right. exists (String c md). repeat split; [discriminate|]. now left.
  - right; left. exists None. repeat split.
  - right; right. exists e. split; [now left | reflexivity].
Qed.

Lemma run_idle (r : response) (st : ui) :
  isLoading st = false ->
  handleFormSubmit r st =
    (let '(res, st2, e2) := handleFormSubmit_resume r (begun st) in
     (res, st2,
      [PreventDefault; InnerHTML "";
       GenerateContent "gemini-2.5-flash" (buildPrompt (form st))] ++ e2)%list).
Proof.
  intro Hl. unfold handleFormSubmit, bind. rewrite (begin_idle st Hl).
  reflexivity.
Qed.

(** Claim C1.  Whatever the request settles to, every string the handler
    assigns to the results container is the empty string, one of the two
    fixed error messages, or the output of the sanitizer on the HTML the
    renderer made of the returned markdown. *)
Theorem rendered_content_is_sanitized (r : response) (st : ui) (html : string) :
  In (InnerHTML html) (snd (handleFormSubmit r st)) ->
  html = "" \/ html = error_html empty_message \/
  html = error_html failure_message \/ renders_to r html.
Proof.
  destruct (isLoading st) eqn:Hl.
  - rewrite (run_busy r st Hl). simpl. intros [Hd | []]. discriminate.
  - rewrite (run_idle r st Hl).
    destruct (resume_cases r (begun st)) as
      [(safe & Hr & ->) | [(text & _ & _ & ->) | (e & _ & ->)]];
      simpl; intros Hin;
      repeat (destruct Hin as [Hin | Hin]; [inversion Hin; subst; auto |]);
      try contradiction.
Qed.

(** On success the sanitized HTML is what ends up in the results
    container, and the export controls are shown. *)
Lemma success_shows_sanitized (r : response) (st : ui) (safe : string) :
  isLoading st = false -> renders_to r safe ->
  handleFormSubmit r st =
    (Returns tt, finished safe false (begun st),
     [PreventDefault; InnerHTML "";
      GenerateContent "gemini-2.5-flash" (buildPrompt (form st));
      InnerHTML safe]).
Proof.
  intros Hl (md & u & -> & Hmd & Hm & Hs). rewrite (run_idle _ st Hl).
  destruct md as [|c md]; [congruence|].
  unfold handleFormSubmit_resume, try_finally, try_catch, after_await, bind, lift.
  cbn. rewrite Hm. cbn. rewrite Hs. reflexivity.
Qed.

(** Claim C7, as amended.  An empty or missing text and a thrown error both
    end with an error message of the same form in the results container
    and the export controls hidden, but the two messages differ, and only
    the thrown error is logged. *)
Theorem failures_shown (st : ui) :
  isLoading st = false ->
  (forall text, truthy text = false ->
     handleFormSubmit (Resolved text) st =
       (Returns tt, finished (error_html empty_message) true (begun st),
        [PreventDefault; InnerHTML "";
         GenerateContent "gemini-2.5-flash" (buildPrompt (form st));
         InnerHTML (error_html empty_message)])) /\
  (forall r e, fails_with r e ->
     handleFormSubmit r st =
       (Returns tt, finished (error_html failure_message) true (begun st),
        [PreventDefault; InnerHTML "";
         GenerateContent "gemini-2.5-flash" (buildPrompt (form st));
         ConsoleError "Error generating keywords:" e;
         InnerHTML (error_html failure_message)])) /\
  error_html empty_message <> error_html failure_message.
Proof.
  intro Hl. split; [|split].
  - intros text Ht. rewrite (run_idle _ st Hl).
    destruct text as [[|c s]|]; try discriminate Ht; reflexivity.
  - intros r e Hf. rewrite (run_idle _ st Hl).
    destruct Hf as [-> | (md & -> & Hmd & Hthrow)]; [reflexivity|].
    destruct md as [|c md]; [congruence|].
    unfold handleFormSubmit_resume, try_finally, try_catch, after_await, bind, lift.
    cbn. destruct Hthrow as [-> | (u & -> & Hs)]; cbn.
    + reflexivity.
    + rewrite Hs. reflexivity.
  - discriminate.
Qed.

(** Claim C8.  A submit event that arrives while the loading flag is set
    only has its default prevented: the page state is unchanged and no
    request is issued, for one such event and for any number in a row. *)
Theorem reentrant_submit_dropped (st : ui) (r : response) :
  isLoading st = true ->
  handleFormSubmit_begin st = (Returns false, st, [PreventDefault]) /\
  handleFormSubmit r st = (Returns tt, st, [PreventDefault]) /\
  forall n, fst (resubmit n st) = st /\
            forall model contents,
              ~ In (GenerateContent model contents) (snd (resubmit n st)).
Proof.
  intro Hl. split; [now apply begin_busy|]. split; [now apply run_busy|].
  induction n as [|n [IHs IHe]]; simpl.
  - split; [reflexivity | intros ? ? []].
  - rewrite (begin_busy st Hl). destruct (resubmit n st) as [st2 e2].
    simpl in *. subst st2. split; [reflexivity|].
    intros model contents [Hd | Hin];
      [discriminate | now apply (IHe model contents)].
Qed.

(** Claim C9.  A run of the handler that passes the guard returns without
    an uncaught error and leaves the page not loading: the flag false, the
    button enabled with its idle label, the spinner hidden, whether the
    request succeeded, came back empty or threw. *)
Theorem loading_restored (r : response) (st : ui) :
  isLoading st = false ->
  let '(res, st', _) := handleFormSubmit r st in
  res = Returns tt /\ isLoading st' = false /\
  generateBtn_disabled st' = false /\ spinner_hidden st' = true /\
  btnText_textContent st' = "Generate Keywords".
Proof.
  intro Hl. rewrite (run_idle r st Hl).
  destruct (resume_cases r (begun st)) as
    [(safe & _ & ->) | [(text & _ & _ & ->) | (e & _ & ->)]];
    repeat split.
Qed.

End HandlerFacts.

(** ** The properties at the sample inputs *)

Lemma rendered_content_is_sanitized_witness :
  In (InnerHTML "<p># Plumbing</p>")
     (snd (@handleFormSubmit sample_platform (Resolved (Some "# Plumbing"))
             idle_page)) /\
  ("<p># Plumbing</p>" = "" \/
   "<p># Plumbing</p>" = error_html empty_message \/
   "<p># Plumbing</p>" = error_html failure_message \/
   @renders_to sample_platform (Resolved (Some "# Plumbing"))
     "<p># Plumbing</p>").
Proof.
  assert (Hin : In (InnerHTML "<p># Plumbing</p>")
                   (snd (@handleFormSubmit sample_platform
                           (Resolved (Some "# Plumbing")) idle_page))).
  { simpl. right; right; right; left. reflexivity. }
  split; [exact Hin|].
  exact (@rendered_content_is_sanitized sample_platform _ idle_page _ Hin).
Defined.

Lemma csv_escaping_round_trip_witness :
  [["K"; "V"]; ["a,b"; "x" ++ dq ++ nl]] <> [] /\
  Forall (fun row : list string => row <> [])
         [["K"; "V"]; ["a,b"; "x" ++ dq ++ nl]] /\
  Csv.parse_csv (Csv.csvContent [["K"; "V"]; ["a,b"; "x" ++ dq ++ nl]])
  = Some [["K"; "V"]; ["a,b"; "x" ++ dq ++ nl]].
Proof.
  assert (Hne : [["K"; "V"]; ["a,b"; "x" ++ dq ++ nl]] <> [])
    by discriminate.
  assert (Hall : Forall (fun row : list string => row <> [])
                        [["K"; "V"]; ["a,b"; "x" ++ dq ++ nl]])
    by (repeat constructor; discriminate).
  split; [exact Hne|]. split; [exact Hall|].
  exact (proj2 (proj2 (csv_escaping_round_trip "a,b" _)) Hne Hall).
Defined.

Lemma csv_refuses_below_two_rows_witness :
  List.length (@csv_data sample_platform other_levels_doc) < 2 /\
  @exportKeywordsToCSV sample_platform other_levels_doc
  = [Alert "No keyword data found to export."].
Proof.
  assert (Hlen : List.length (@csv_data sample_platform other_levels_doc) < 2)
    by (simpl; lia).
  split; [exact Hlen|].
  exact (proj1 (@csv_refuses_below_two_rows sample_platform _ Hlen)).
Defined.

Lemma failures_shown_witness :
  isLoading idle_page = false /\
  truthy None = false /\
  @handleFormSubmit sample_platform (Resolved None) idle_page =
    (Returns tt, finished (error_html empty_message) true (begun idle_page),
     [PreventDefault; InnerHTML "";
      GenerateContent "gemini-2.5-flash" (buildPrompt (form idle_page));
      InnerHTML (error_html empty_message)]) /\
  @fails_with sample_platform (Rejected "network") "network" /\
  @handleFormSubmit sample_platform (Rejected "network") idle_page =
    (Returns tt, finished (error_html failure_message) true (begun idle_page),
     [PreventDefault; InnerHTML "";
      GenerateContent "gemini-2.5-flash" (buildPrompt (form idle_page));
      ConsoleError "Error generating keywords:" "network";
      InnerHTML (error_html failure_message)]).
Proof.
  assert (Hl : isLoading idle_page = false) by reflexivity.
  assert (Hf : @fails_with sample_platform (Rejected "network") "network")
    by (left; reflexivity).
  split; [exact Hl|]. split; [reflexivity|]. split.
  - exact (proj1 (@failures_shown sample_platform idle_page Hl) None eq_refl).
  - split; [exact Hf|].
    exact (proj1 (proj2 (@failures_shown sample_platform idle_page Hl)) _ _ Hf).
Defined.

Lemma reentrant_submit_dropped_witness :
  isLoading busy_page = true /\
  @handleFormSubmit sample_platform (Resolved (Some "# Plumbing")) busy_page
  = (Returns tt, busy_page, [PreventDefault]).
Proof.
  assert (Hl : isLoading busy_page = true) by reflexivity.
  split; [exact Hl|].
  exact (proj1 (proj2 (@reentrant_submit_dropped sample_platform busy_page
                         (Resolved (Some "# Plumbing")) Hl))).
Defined.

Lemma loading_restored_witness :
  isLoading idle_page = false /\
  (let '(res, st', _) :=
     @handleFormSubmit sample_platform (Rejected "network") idle_page in
   res = Returns tt /\ isLoading st' = false /\
   generateBtn_disabled st' = false /\ spinner_hidden st' = true /\
   btnText_textContent st' = "Generate Keywords").
Proof.
  assert (Hl : isLoading idle_page = false) by reflexivity.
  split; [exact Hl|].
  exact (@loading_restored sample_platform (Rejected "network") idle_page Hl).
Defined.

Lemma other_heading_levels_ignored_witness :
  occurs "h4" other_levels_doc = false /\
  occurs "h3" other_levels_doc = false /\
  @exportKeywordsToCSV sample_platform other_levels_doc
  = [Alert "No keyword data found to export."] /\
  @exportPriorityKeywordsToJSON sample_platform other_levels_doc
  = Returns [Alert "No priority keywords found to export."].
Proof.
  assert (H4 : occurs "h4" other_levels_doc = false) by reflexivity.
  assert (H3 : occurs "h3" other_levels_doc = false) by reflexivity.
  split; [exact H4|]. split; [exact H3|]. split.
  - exact (proj1 (@other_heading_levels_ignored sample_platform _) H4).
  - exact (proj2 (@other_heading_levels_ignored sample_platform _) H3).
Defined.

(** The two failures at the sample page: the messages shown are not the
    same. *)
Lemma empty_and_thrown_messages_differ :
  resultsContainer_innerHTML
    (snd (fst (@handleFormSubmit sample_platform (Resolved None) idle_page)))
  <>
  resultsContainer_innerHTML
    (snd (fst (@handleFormSubmit sample_platform (Rejected "network")
                 idle_page))).
Proof. vm_compute. discriminate. Qed.

(** ** The end-to-end scenario and other checks *)

Example escape_plain : Csv.escapeCell "seo audit" = "seo audit".
Proof. reflexivity. Qed.

Example escape_comma : Csv.escapeCell "~1,200" = dq ++ "~1,200" ++ dq.
Proof. reflexivity. Qed.

Example escape_quote :
  Csv.escapeCell ("say " ++ dq ++ "hi" ++ dq)
  = dq ++ "say " ++ dq ++ dq ++ "hi" ++ dq ++ dq ++ dq.
Proof. reflexivity. Qed.

Example scenario_csv :
  @exportKeywordsToCSV sample_platform scenario_doc =
  [DownloadFile
     (join nl ["Keyword,Monthly Search Volume";
               "emergency plumber," ++ dq ++ "~1,200" ++ dq;
               "24h plumber,~800"])
     "keyword_ideas.csv" "text/csv;charset=utf-8;"].
Proof. vm_compute. reflexivity. Qed.

Example scenario_json :
  @priority_rows sample_platform scenario_doc =
  [[("Priority Keyword", "emergency plumber");
    ("Reason for Prioritization", "High intent")];
   [("Priority Keyword", "24h plumber");
    ("Reason for Prioritization", "Low cost")]].
Proof. vm_compute. reflexivity. Qed.

Example ragged_row_skipped :
  @priority_rows sample_platform ragged_doc = [[("P", "a"); ("R", "b")]].
Proof. vm_compute. reflexivity. Qed.

Example headerless_export :
  @exportKeywordsToCSV sample_platform headerless_first_doc =
  [DownloadFile (join nl [""; "x"; "K"; "y"])
     "keyword_ideas.csv" "text/csv;charset=utf-8;"].
Proof. vm_compute. reflexivity. Qed.

(** * Further properties of the code *)

(** ** trim *)

Lemma trimEnd_keeps_head (c : ascii) (s : string) :
  is_space c = false -> trimEnd (String c s) = String c (trimEnd s).
Proof.
  intro Hc. cbn [trimEnd]. destruct (trimEnd s); [now rewrite Hc | reflexivity].
Qed.

Lemma trimStart_head (s : string) (c : ascii) :
  first_char (trimStart s) = Some c -> is_space c = false.
Proof.
  induction s as [|d s IH]; cbn [trimStart]; [discriminate|].
  destruct (is_space d) eqn:Hd; [exact IH|].
  cbn. intro Heq. now injection Heq as <-.
Qed.

Lemma trimEnd_last (s : string) (c : ascii) :
  last_char (trimEnd s) = Some c -> is_space c = false.
Proof.
  induction s as [|d s IH]; cbn [trimEnd]; [discriminate|].
  destruct (trimEnd s) as [|e t] eqn:Ht.
  - destruct (is_space d) eqn:Hd; [discriminate|].
    cbn. intro Heq. now injection Heq as <-.
  - exact IH.
Qed.

Lemma trim_trimmed (s : string) : trimmed (trim s) = true.
Proof.
  unfold trimmed.
  destruct (first_char (trim s)) as [c|] eqn:Hf; [|reflexivity].
  destruct (last_char (trim s)) as [d|] eqn:Hl; [|reflexivity].
  rewrite (trimEnd_last _ _ Hl).
  unfold trim in Hf. destruct (trimStart s) as [|e r] eqn:Hs; [discriminate|].
  assert (He : is_space e = false) by (apply (trimStart_head s); now rewrite Hs).
  rewrite (trimEnd_keeps_head e r He) in Hf. injection Hf as <-.
  now rewrite He.
Qed.

(** ** Counting characters *)

Lemma count_char_app (c : ascii) (a b : string) :
  count_char c (a ++ b) = count_char c a + count_char c b.
Proof.
  induction a as [|d a IH]; [reflexivity|].
  cbn [String.append count_char]. rewrite IH. lia.
Qed.

Lemma count_char_join (c : ascii) (sep : string) (l : list string) :
  count_char c (join sep l) =
  list_sum (map (count_char c) l) + (List.length l - 1) * count_char c sep.
Proof.
  induction l as [|x l IH]; [reflexivity|].
  destruct l as [|y l].
  - cbn. lia.
  - change (join sep (x :: y :: l)) with (x ++ sep ++ join sep (y :: l)).
    rewrite !count_char_app, IH. cbn [map list_sum List.length].
    rewrite !Nat.sub_succ, !Nat.sub_0_r, (Nat.mul_succ_l (List.length l)).
    unfold list_sum. cbn [fold_right]. lia.
Qed.

Lemma newlines_replaceQuotes (s : string) :
  count_char newline_char (Csv.replaceQuotes s) = count_char newline_char s.
Proof.
  induction s as [|c s IH]; [reflexivity|]. cbn [Csv.replaceQuotes].
  destruct (Ascii.eqb_spec c quote_char) as [->|Hc]; cbn [count_char];
    rewrite IH; reflexivity.
Qed.

Lemma newlines_escapeCell (s : string) :
  count_char newline_char (Csv.escapeCell s) = count_char newline_char s.
Proof.
  rewrite CsvFacts.escapeCell_shape. destruct (has_special s).
  - rewrite !count_char_app, newlines_replaceQuotes. cbn. lia.
  - apply newlines_replaceQuotes.
Qed.

Lemma newlines_csvRow (row : list string) :
  count_char newline_char (Csv.csvRow row) =
  list_sum (map (count_char newline_char) row).
Proof.
  unfold Csv.csvRow. rewrite count_char_join, map_map.
  cbn [count_char]. rewrite Nat.mul_0_r, Nat.add_0_r.
  f_equal. apply map_ext. intro s. apply newlines_escapeCell.
Qed.

(** X14.  The exported text has one line feed between consecutive rows and,
    besides, exactly the line feeds of the cells: a table without line
    feeds in its cells makes as many lines as it has rows. *)
Theorem csv_line_breaks (data : list (list string)) :
  count_char newline_char (Csv.csvContent data) =
  (List.length data - 1) +
  list_sum (map (fun row => list_sum (map (count_char newline_char) row)) data).
Proof.
  unfold Csv.csvContent. rewrite count_char_join, map_map, length_map.
  cbn [nl count_char]. rewrite Ascii.eqb_refl.
  rewrite (map_ext _ _ newlines_csvRow). lia.
Qed.

(** ** The prompt determines the inputs *)

Lemma one_line_cons (c : ascii) (s : string) :
  one_line (String c s) = true ->
  Ascii.eqb c newline_char = false /\ one_line s = true.
Proof.
  unfold one_line. cbn [count_char].
  destruct (Ascii.eqb c newline_char); cbn; [discriminate | auto].
Qed.

Lemma line_break_splits (a b x y : string) :
  one_line a = true -> one_line b = true ->
  a ++ String newline_char x = b ++ String newline_char y ->
  a = b /\ x = y.
Proof.
  revert b. induction a as [|c a IH]; intros [|d b] Ha Hb Heq;
    cbn [String.append] in Heq.
  - injection Heq as ->. auto.
  - injection Heq as <- _. apply one_line_cons in Hb as [Hd _].
    rewrite Ascii.eqb_refl in Hd. discriminate.
  - injection Heq as -> _. apply one_line_cons in Ha as [Hc _].
    rewrite Ascii.eqb_refl in Hc. discriminate.
  - injection Heq as -> Heq.
    apply one_line_cons in Ha as [_ Ha]. apply one_line_cons in Hb as [_ Hb].
    destruct (IH b Ha Hb Heq) as [-> ->]. auto.
Qed.

Lemma join_lines_injective (l1 : list string) :
  forall l2,
    List.length l1 = List.length l2 ->
    Forall (fun s => one_line s = true) l1 ->
    Forall (fun s => one_line s = true) l2 ->
    join nl l1 = join nl l2 -> l1 = l2.
Proof.
  induction l1 as [|a l1 IH]; intros [|b l2] Hlen H1 H2 Heq;
    try discriminate Hlen; [reflexivity|].
  inversion H1 as [|? ? Ha H1']; inversion H2 as [|? ? Hb H2']; subst.
  injection Hlen as Hlen.
  destruct l1 as [|a2 l1]; destruct l2 as [|b2 l2]; try discriminate Hlen.
  - cbn in Heq. now subst.
  - change (a ++ String newline_char (join nl (a2 :: l1)) =
            b ++ String newline_char (join nl (b2 :: l2))) in Heq.
    destruct (line_break_splits _ _ _ _ Ha Hb Heq) as [-> Hrest].
    f_equal. now apply IH.
Qed.

Lemma promptLines_one_line (f : FormInputs) :
  one_line_inputs f -> Forall (fun s => one_line s = true) (promptLines f).
Proof.
  intros (Hs & Hu & Hl & Hg & Hla). unfold promptLines.
  repeat (constructor;
          [first [reflexivity
                 | unfold one_line in *; rewrite count_char_app; assumption]|]).
  constructor.
Qed.

Lemma buildPrompt_same_inputs (f g : FormInputs) :
  one_line_inputs f -> one_line_inputs g ->
  buildPrompt f = buildPrompt g -> f = g.
Proof.
  intros Hf Hg Heq. unfold buildPrompt in Heq.
  apply join_lines_injective in Heq;
    [| reflexivity | now apply promptLines_one_line
     | now apply promptLines_one_line].
  unfold promptLines in Heq.
  destruct f as [s1 u1 l1 g1 a1], g as [s2 u2 l2 g2 a2]. cbn in Heq.
  injection Heq as -> -> -> -> ->. reflexivity.
Qed.

(** X12.  When no input value contains a line feed, different inputs give
    different prompts. *)
Theorem buildPrompt_distinguishes_inputs (f g : FormInputs) :
  one_line_inputs f -> one_line_inputs g ->
  f <> g -> buildPrompt f <> buildPrompt g.
Proof.
  intros Hf Hg Hne Heq. apply Hne. now apply buildPrompt_same_inputs.
Qed.

(** ** Plain objects, continued *)

Lemma obj_put_key_in (k v k' : string) (o : object) :
  In k' (map fst (obj_put k v o)) <-> k' = k \/ In k' (map fst o).
Proof.
  induction o as [|[k2 v2] o IH]; cbn [obj_put map fst In].
  - split; [intros [->|[]]; now left | intros [->|[]]; now left].
  - destruct (String.eqb_spec k2 k) as [->|Hne]; cbn [map fst In].
    + intuition (subst; auto).
    + rewrite IH. intuition (subst; auto).
Qed.

Lemma obj_put_NoDup (k v : string) (o : object) :
  NoDup (map fst o) -> NoDup (map fst (obj_put k v o)).
Proof.
  induction o as [|[k2 v2] o IH]; cbn [obj_put map fst]; intro Hnd.
  - constructor; [intros [] | constructor].
  - inversion Hnd as [|? ? Hk Hrest]; subst.
    destruct (String.eqb_spec k2 k) as [->|Hne]; cbn [map fst].
    + now constructor.
    + constructor; [|now apply IH].
      rewrite obj_put_key_in. intros [->|Hin]; [congruence | contradiction].
Qed.

Lemma obj_put_entry (k v : string) (o : object) (kv : string * string) :
  In kv (obj_put k v o) -> snd kv = v \/ In kv o.
Proof.
  induction o as [|[k2 v2] o IH]; cbn [obj_put In].
  - intros [<-|[]]. now left.
  - destruct (String.eqb_spec k2 k) as [->|Hne]; cbn [In].
    + intros [<-|Hin]; [now left | right; now right].
    + intros [<-|Hin]; [right; now left|].
      destruct (IH Hin) as [Hv|Ho]; [now left | right; now right].
Qed.

(** ** The exporters, continued *)

Section ExporterMore.
Context `{Platform}.

Lemma cellText_trimmed (x : located) : trimmed (cellText x) = true.
Proof. apply trim_trimmed. Qed.

Lemma row_steps_keys (l : list (string * located)) :
  forall o,
    NoDup (map fst o) ->
    NoDup (map fst (fold_left row_step l o)) /\
    forall k, In k (map fst (fold_left row_step l o)) ->
              In k (map fst o) \/ (In k (map fst l) /\ k <> "__proto__").
Proof.
  induction l as [|[h c] l IH]; intros o Hnd; cbn [fold_left].
  - split; [assumption | intros k Hk; now left].
  - assert (Hnd' : NoDup (map fst (row_step o (h, c)))).
    { unfold row_step, obj_set. cbn [fst snd].
      destruct (String.eqb h "__proto__");
        [assumption | now apply obj_put_NoDup]. }
    destruct (IH _ Hnd') as [Hres Hkeys]. split; [assumption|].
    intros k Hk. destruct (Hkeys k Hk) as [Hin | [Hin Hp]].
    + unfold row_step, obj_set in Hin. cbn [fst snd] in Hin.
      destruct (String.eqb_spec h "__proto__") as [->|Hne]; [now left|].
      apply obj_put_key_in in Hin as [->|Hin]; [|now left].
      right. split; [now left | assumption].
    + right. split; [now right | assumption].
Qed.

Lemma row_steps_values (l : list (string * located)) :
  forall o kv,
    In kv (fold_left row_step l o) ->
    In kv o \/ exists x, snd kv = cellText x.
Proof.
  induction l as [|[h c] l IH]; intros o kv Hin; cbn [fold_left] in Hin.
  - now left.
  - destruct (IH _ _ Hin) as [Ho | Hx]; [|now right].
    unfold row_step, obj_set in Ho. cbn [fst snd] in Ho.
    destruct (String.eqb h "__proto__"); [now left|].
    destruct (obj_put_entry _ _ _ _ Ho) as [Hv|Ho'];
      [right; now exists c | now left].
Qed.

(** X10.  In the object of a row, a header other than [__proto__] maps to
    the text of the cell at its last position among the headers: with a
    header repeated, the later cell overwrites the earlier. *)
Theorem rowObject_last_header_wins (headers : list string)
    (cells : list located) (i : nat) (h : string) (c : located) :
  h <> "__proto__" ->
  nth_error headers i = Some h -> nth_error cells i = Some c ->
  (forall j, i < j -> nth_error headers j <> Some h) ->
  obj_get h (rowObject headers cells) = Some (cellText c).
Proof.
  intro Hp. unfold rowObject. generalize (@nil (string * string)) as o.
  revert cells i.
  induction headers as [|k hs IH]; intros cells i o Hh Hc Hlast.
  - destruct i; discriminate Hh.
  - destruct cells as [|c0 cs]; [destruct i; discriminate Hc|].
    cbn [combine fold_left]. destruct i as [|i]; cbn [nth_error] in Hh, Hc.
    + injection Hh as ->. injection Hc as ->.
      rewrite fold_step_other.
      * unfold row_step, obj_set. cbn [fst snd].
        apply String.eqb_neq in Hp. rewrite Hp. apply obj_get_put_same.
      * intro Hin. apply in_combine_fst in Hin.
        apply In_nth_error in Hin as [j Hj].
        apply (Hlast (S j)); [lia | exact Hj].
    + apply (IH cs i); try assumption.
      intros j Hij. apply (Hlast (S j)). lia.
Qed.

Lemma rowObject_keys (headers : list string) (cells : list located) :
  NoDup (map fst (rowObject headers cells)) /\
  (forall k, In k (map fst (rowObject headers cells)) ->
             In k headers /\ k <> "__proto__") /\
  (forall kv, In kv (rowObject headers cells) -> exists x, snd kv = cellText x).
Proof.
  unfold rowObject.
  destruct (row_steps_keys (combine headers cells) [] (NoDup_nil _))
    as [Hnd Hk].
  split; [assumption|]. split.
  - intros k Hin. destruct (Hk k Hin) as [[] | [Hc Hp]].
    split; [now apply (in_combine_fst k headers cells) | assumption].
  - intros kv Hin. destruct (row_steps_values _ _ _ Hin) as [[] | Hx].
    exact Hx.
Qed.

(** X11.  Every object the JSON export writes has distinct keys, none of
    them [__proto__] (a column with that header is dropped), and its keys
    and values carry no white space at either end. *)
Theorem exported_objects_well_keyed (container : node) (o : object) :
  In o (priority_rows container) ->
  NoDup (map fst o) /\ ~ In "__proto__" (map fst o) /\
  forall k v, In (k, v) o -> trimmed k = true /\ trimmed v = true.
Proof.
  unfold priority_rows.
  destruct (priorityHeading container) as [heading|]; [|intros []].
  destruct (nextElementSibling heading) as [table|]; [|intros []].
  destruct (String.eqb (tagName (el table)) "TABLE"); [|intros []].
  cbv zeta. rewrite in_map_iff. intros (row & <- & _).
  destruct (rowObject_keys (header_cells table) (querySelectorAll "td" row))
    as (Hnd & Hkeys & Hvals).
  split; [assumption|]. split.
  - intro Hin. now destruct (Hkeys _ Hin).
  - intros k v Hin. split.
    + assert (Hk : In k (map fst (rowObject (header_cells table)
                                     (querySelectorAll "td" row))))
        by (apply in_map_iff; now exists (k, v)).
      destruct (Hkeys k Hk) as [Hh _]. unfold header_cells in Hh.
      apply in_map_iff in Hh as (x & <- & _). apply cellText_trimmed.
    + destruct (Hvals _ Hin) as [x Hx]. cbn in Hx. subst v.
      apply cellText_trimmed.
Qed.

Lemma adjacent_tables_In (headings : list located) (t : located) :
  In t (adjacent_tables headings) ->
  exists heading,
    In heading headings /\
    startsWith (textContent (el heading)) "Ad Group:" = true /\
    nextElementSibling heading = Some t /\
    tagName (el t) = "TABLE".
Proof.
  unfold adjacent_tables. rewrite in_flat_map. intros (heading & Hin & Ht).
  exists heading. split; [assumption|].
  destruct (startsWith (textContent (el heading)) "Ad Group:"); [|destruct Ht].
  destruct (nextElementSibling heading) as [t'|]; [|destruct Ht].
  destruct (String.eqb_spec (tagName (el t')) "TABLE") as [Heq|];
    [|destruct Ht].
  destruct Ht as [<-|[]]. auto.
Qed.

Lemma csv_visit_table_rows (t : located) (data : list (list string))
    (headers : list string) (row : list string) :
  In row (fst (csv_visit_table t (data, headers))) ->
  In row data \/ row = header_cells t \/ In row (body_rows t).
Proof.
  destruct headers as [|h hs].
  - rewrite csv_visit_table_first. cbn [fst]. rewrite in_app_iff. cbn [In].
    intros [Hd | [<- | Hb]]; auto.
  - rewrite csv_visit_table_later by discriminate. cbn [fst].
    rewrite in_app_iff. intros [Hd | Hb]; auto.
Qed.

Lemma csv_visit_tables_rows (tables : list located) (row : list string) :
  forall st,
    In row (fst (fold_left (fun st table => csv_visit_table table st)
                   tables st)) ->
    In row (fst st) \/
    exists t, In t tables /\ (row = header_cells t \/ In row (body_rows t)).
Proof.
  induction tables as [|t ts IH]; intros st Hin; cbn [fold_left] in Hin.
  - now left.
  - destruct (IH _ Hin) as [Hst | (t' & Ht' & Hrow)].
    + destruct st as [data headers].
      destruct (csv_visit_table_rows _ _ _ _ Hst) as [Hd | Hrow];
        [now left | right; exists t; split; [now left | assumption]].
    + right. exists t'. split; [now right | assumption].
Qed.

Lemma body_rows_nonempty (tables : list located) :
  Forall (fun row : list string => row <> []) (flat_map body_rows tables).
Proof.
  apply Forall_forall. intros row Hin.
  apply in_flat_map in Hin as (t & _ & Hb).
  unfold body_rows in Hb. apply filter_In in Hb as [_ Hlen].
  intros ->. discriminate Hlen.
Qed.

(** X6.  When the first table read has header cells, the rows collected are
    those header cells, once, followed by the body rows that have a cell of
    every table read, in document order; no collected row is empty. *)
Theorem csv_headers_once_when_first_table_has_them (container : node)
    (t : located) (ts : list located) :
  adjacent_tables (querySelectorAll "h4" (at_root container)) = t :: ts ->
  header_cells t <> [] ->
  csv_data container = header_cells t :: flat_map body_rows (t :: ts) /\
  Forall (fun row => row <> []) (csv_data container).
Proof.
  intros Htables Hne. rewrite (csv_data_headed container t ts Htables Hne).
  split; [reflexivity|]. constructor; [assumption|].
  apply body_rows_nonempty.
Qed.

(** X7.  Every row the CSV extractor collects, header or data, comes from
    a table that is the next element sibling of an [h4] heading whose text
    starts with the prefix. *)
Theorem csv_rows_come_from_ad_group_tables (container : node)
    (row : list string) :
  In row (csv_data container) ->
  exists heading table,
    In heading (querySelectorAll "h4" (at_root container)) /\
    has_tag "h4" (el heading) = true /\
    startsWith (textContent (el heading)) "Ad Group:" = true /\
    nextElementSibling heading = Some table /\
    tagName (el table) = "TABLE" /\
    (row = header_cells table \/ In row (body_rows table)).
Proof.
  unfold csv_data. rewrite csv_visit_headings. intro Hin.
  destruct (csv_visit_tables_rows _ _ _ Hin) as [[] | (t & Ht & Hrow)].
  destruct (adjacent_tables_In _ _ Ht) as (heading & Hh & Hs & Hn & Htag).
  exists heading, t. repeat split; try assumption.
  now apply (querySelectorAll_tag "h4" (at_root container)).
Qed.

Lemma csv_rows_source (container : node) (row : list string) :
  In row (csv_data container) ->
  exists xs : list located, row = map cellText xs.
Proof.
  unfold csv_data. rewrite csv_visit_headings. intro Hin.
  destruct (csv_visit_tables_rows _ _ _ Hin) as [[] | (t & _ & [-> | Hb])].
  - now eexists.
  - unfold body_rows in Hb. apply filter_In in Hb as [Hb _].
    apply in_map_iff in Hb as (r & <- & _). now eexists.
Qed.

(** X8.  No cell the CSV extractor collects begins or ends with white
    space. *)
Theorem csv_cells_are_trimmed (container : node) (row : list string)
    (cell : string) :
  In row (csv_data container) -> In cell row -> trimmed cell = true.
Proof.
  intros Hrow Hcell. destruct (csv_rows_source _ _ Hrow) as [xs ->].
  apply in_map_iff in Hcell as (x & <- & _). apply cellText_trimmed.
Qed.

(** X9.  When the first table read has header cells and some table read
    has a body row with a cell, the export downloads [keyword_ideas.csv] as
    [text/csv], and reading the file back gives the header row followed by
    the data rows. *)
Theorem csv_export_reads_back (container : node) (t : located)
    (ts : list located) :
  adjacent_tables (querySelectorAll "h4" (at_root container)) = t :: ts ->
  header_cells t <> [] ->
  flat_map body_rows (t :: ts) <> [] ->
  exists content,
    exportKeywordsToCSV container =
      [DownloadFile content "keyword_ideas.csv" "text/csv;charset=utf-8;"] /\
    Csv.parse_csv content =
      Some (header_cells t :: flat_map body_rows (t :: ts)).
Proof.
  intros Htables Hne Hrows.
  exists (Csv.csvContent (header_cells t :: flat_map body_rows (t :: ts))).
  split.
  - unfold exportKeywordsToCSV.
    rewrite (csv_data_headed container t ts Htables Hne). cbv zeta.
    destruct (flat_map body_rows (t :: ts)) as [|r rs]; [congruence|].
    reflexivity.
  - unfold Csv.parse_csv.
    rewrite CsvFacts.read_rows; [reflexivity | discriminate |].
    constructor; [assumption | apply body_rows_nonempty].
Qed.

Lemma priorityHeading_found (container : node) (heading : located) :
  priorityHeading container = Some heading ->
  In heading (descendants false container) /\
  has_tag "h3" (el heading) = true /\
  trim (textContent (el heading)) = "Priority Keywords".
Proof.
  unfold priorityHeading, querySelectorAll. cbn [at_root el under_tbody].
  intro Hfind. apply find_some in Hfind as [Hin Hp].
  apply filter_In in Hin as [Hin Htag].
  unfold is_priority_heading in Hp. apply String.eqb_eq in Hp. auto.
Qed.

(** Claim C10.  In every document the CSV extractor works from the [h4]
    elements alone and the JSON extractor from the [h3] elements alone:
    the rows of the first are those read at the tables next to the [h4]
    elements with the prefix, the heading of the second is the first [h3]
    element with the title.  So every row of the CSV export comes from a
    table next to an [h4] heading, and the content of a JSON download from
    the table next to an [h3] heading; a heading of any other level, with
    whatever text, contributes nothing. *)
Theorem exports_scan_one_heading_level (container : node) :
  csv_data container =
    fst (fold_left (fun st t => csv_visit_table t st)
           (adjacent_tables
              (filter (fun x => has_tag "h4" (el x))
                      (descendants false container)))
           ([], [])) /\
  priorityHeading container =
    find (fun x => String.eqb (trim (textContent (el x))) "Priority Keywords")
         (filter (fun x => has_tag "h3" (el x))
                 (descendants false container)) /\
  (forall row, In row (csv_data container) ->
     exists heading table,
       In heading (descendants false container) /\
       has_tag "h4" (el heading) = true /\
       startsWith (textContent (el heading)) "Ad Group:" = true /\
       nextElementSibling heading = Some table /\
       tagName (el table) = "TABLE" /\
       (row = header_cells table \/ In row (body_rows table))) /\
  (forall content fileName mimeType,
     exportPriorityKeywordsToJSON container =
       Returns [DownloadFile content fileName mimeType] ->
     exists heading table,
       In heading (descendants false container) /\
       has_tag "h3" (el heading) = true /\
       trim (textContent (el heading)) = "Priority Keywords" /\
       nextElementSibling heading = Some table /\
       tagName (el table) = "TABLE" /\
       content =
         JSON_stringify
           (map (fun row => rowObject (header_cells table)
                                      (querySelectorAll "td" row))
              (filter (fun row =>
                         (List.length (querySelectorAll "td" row)
                          =? List.length (header_cells table))%nat)
                      (querySelectorAll_tbody_tr table)))).
Proof.
  split; [|split; [|split]].
  - unfold csv_data. now rewrite csv_visit_headings.
  - reflexivity.
  - intros row Hin. unfold csv_data in Hin. rewrite csv_visit_headings in Hin.
    destruct (csv_visit_tables_rows _ _ _ Hin) as [[] | (t & Ht & Hrow)].
    destruct (adjacent_tables_In _ _ Ht) as (heading & Hh & Hs & Hn & Htag).
    unfold querySelectorAll in Hh. cbn [at_root el under_tbody] in Hh.
    apply filter_In in Hh as [Hh Hh4].
    exists heading, t. repeat split; assumption.
  - intros content fileName mimeType Hexp.
    unfold exportPriorityKeywordsToJSON in Hexp.
    destruct (priorityHeading container) as [heading|] eqn:Hp;
      [|discriminate Hexp].
    destruct (priorityHeading_found _ _ Hp) as (Hin & Htag & Htext).
    unfold json_data in Hexp.
    destruct (nextElementSibling heading) as [table|] eqn:Hn;
      [|discriminate Hexp].
    destruct (String.eqb_spec (tagName (el table)) "TABLE") as [Ht|];
      [|discriminate Hexp].
    cbv zeta in Hexp. rewrite json_visit_rows in Hexp. cbn [app] in Hexp.
    fold (header_cells table) in Hexp.
    destruct (map _ (filter _ _)) as [|o os] eqn:Hrows; [discriminate Hexp|].
    cbn in Hexp. injection Hexp as <- _ _.
    exists heading, table. repeat split; try assumption.
    f_equal. symmetry. exact Hrows.
Qed.

End ExporterMore.

(** ** The submit handler, continued *)

Lemma requests_app (a b : list effect) :
  requests (a ++ b) = (requests a ++ requests b)%list.
Proof.
  induction a as [|e a IH]; [reflexivity|].
  destruct e; cbn [app requests]; rewrite ?IH; reflexivity.
Qed.

Section HandlerMore.
Context `{Platform}.

(** What ends up in the results container and whether the export controls
    stay hidden depend on the settled request alone. *)
Lemma resume_outcome (r : response) :
  exists html hidden tail,
    (forall st, handleFormSubmit_resume r st =
                  (Returns tt, finished html hidden st, tail)) /\
    requests tail = [] /\
    (hidden = false <-> exists safe, renders_to r safe).
Proof.
  unfold handleFormSubmit_resume, try_finally, try_catch, after_await, bind, lift.
  destruct r as [[[|c md]|]|e].
  - exists (error_html empty_message), true,
      [InnerHTML (error_html empty_message)].
    split; [intros []; reflexivity|]. split; [reflexivity|].
    split; [discriminate|]. intros (safe & md & u & Hr & Hmd & _).
    injection Hr as <-. congruence.
  - cbn. destruct (marked_parse (String c md)) as [u|e] eqn:Hm; cbn.
    + destruct (sanitize u) as [safe|e] eqn:Hs; cbn.
      * exists safe, false, [InnerHTML safe].
        split; [intros []; reflexivity|]. split; [reflexivity|].
        split; [|reflexivity]. intros _. exists safe, (String c md), u.
        repeat split; try assumption. discriminate.
      * exists (error_html failure_message), true,
          [ConsoleError "Error generating keywords:" e;
           InnerHTML (error_html failure_message)].
        split; [intros []; reflexivity|].
        split; [reflexivity|]. split; [discriminate|].
        intros (safe & md' & u' & Hr & _ & Hm' & Hs').
        injection Hr as <-. rewrite Hm in Hm'. injection Hm' as <-.
        rewrite Hs in Hs'. discriminate.
    + exists (error_html failure_message), true,
        [ConsoleError "Error generating keywords:" e;
         InnerHTML (error_html failure_message)].
      split; [intros []; reflexivity|].
      split; [reflexivity|]. split; [discriminate|].
      intros (safe & md' & u' & Hr & _ & Hm' & _).
      injection Hr as <-. rewrite Hm in Hm'. discriminate.
  - exists (error_html empty_message), true,
      [InnerHTML (error_html empty_message)].
    split; [intros []; reflexivity|]. split; [reflexivity|].
    split; [discriminate|]. intros (safe & md & u & Hr & _). discriminate.
  - exists (error_html failure_message), true,
      [ConsoleError "Error generating keywords:" e;
       InnerHTML (error_html failure_message)].
    split; [intros []; reflexivity|].
    split; [reflexivity|]. split; [discriminate|].
    intros (safe & md & u & Hr & _). discriminate.
Qed.

(** X1.  A submission that passes the guard issues exactly one request, to
    the model [gemini-2.5-flash], with the prompt built from the form as it
    is at that moment; no outcome makes it issue another. *)
Theorem one_request_per_submission (r : response) (st : ui) :
  isLoading st = false ->
  requests (snd (handleFormSubmit r st)) =
    [("gemini-2.5-flash", buildPrompt (form st))].
Proof.
  intro Hl. rewrite (run_idle r st Hl).
  destruct (resume_outcome r) as (html & hidden & tail & Hrun & Hreq & _).
  rewrite Hrun. cbn [snd]. rewrite requests_app, Hreq. reflexivity.
Qed.

(** X2.  After a submission that passes the guard the export controls are
    shown exactly when the request returned non-empty markdown that was
    rendered and sanitized without an error. *)
Theorem export_controls_shown_iff_rendered (r : response) (st : ui) :
  isLoading st = false ->
  exportControls_hidden (snd (fst (handleFormSubmit r st))) = false <->
  exists safe, renders_to r safe.
Proof.
  intro Hl. rewrite (run_idle r st Hl).
  destruct (resume_outcome r) as (html & hidden & tail & Hrun & _ & Hiff).
  rewrite Hrun. exact Hiff.
Qed.

(** X4.  However a submission ends, the next submit event passes the guard
    and issues a request with the prompt of the same form values. *)
Theorem page_usable_after_any_outcome (r : response) (st : ui) :
  isLoading st = false ->
  let st' := snd (fst (handleFormSubmit r st)) in
  handleFormSubmit_begin st' =
    (Returns true, begun st',
     [PreventDefault; InnerHTML "";
      GenerateContent "gemini-2.5-flash" (buildPrompt (form st))]).
Proof.
  intro Hl. cbv zeta. rewrite (run_idle r st Hl).
  destruct (resume_outcome r) as (html & hidden & tail & Hrun & _ & _).
  rewrite Hrun. cbn [fst snd]. rewrite begin_idle by reflexivity.
  reflexivity.
Qed.

(** X5.  What a submission leaves in the results container, and whether it
    shows the export controls, does not depend on the page before it:
    nothing of the previous output survives. *)
Theorem results_replace_previous_output (r : response) (st1 st2 : ui) :
  isLoading st1 = false -> isLoading st2 = false ->
  let end1 := snd (fst (handleFormSubmit r st1)) in
  let end2 := snd (fst (handleFormSubmit r st2)) in
  resultsContainer_innerHTML end1 = resultsContainer_innerHTML end2 /\
  exportControls_hidden end1 = exportControls_hidden end2.
Proof.
  intros H1 H2. cbv zeta. rewrite (run_idle r st1 H1), (run_idle r st2 H2).
  destruct (resume_outcome r) as (html & hidden & tail & Hrun & _ & _).
  rewrite !Hrun. split; reflexivity.
Qed.

Lemma page_step_ok (e : page_event) (p p' : page) (eff : list effect) :
  page_ok p -> page_step e p = Some (p', eff) ->
  page_ok p' /\
  List.length (requests eff) + pending p =
    (match e with Settle _ => 1 | _ => 0 end) + pending p'.
Proof.
  unfold page_ok. intros [Hpend Hind] Hstep.
  destruct e as [|r|f]; cbn [page_step] in Hstep.
  - destruct (isLoading (view p)) eqn:Hl.
    + rewrite (begin_busy (view p) Hl) in Hstep. injection Hstep as <- <-.
      cbn [view pending requests List.length]. rewrite Hl.
      split; [split; assumption | reflexivity].
    + rewrite (begin_idle (view p) Hl) in Hstep. injection Hstep as <- <-.
      cbn [view pending requests List.length begun isLoading
           generateBtn_disabled spinner_hidden btnText_textContent].
      split; [split|]; [lia | intros _; repeat split | lia].
  - destruct (pending p) as [|n] eqn:Hp; [discriminate|].
    destruct (resume_outcome r) as (html & hidden & tail & Hrun & Hreq & _).
    rewrite Hrun in Hstep. injection Hstep as <- <-.
    cbn [view pending finished isLoading]. rewrite Hreq.
    destruct (isLoading (view p)); [|discriminate].
    injection Hpend as ->.
    split; [split|]; [reflexivity | discriminate | reflexivity].
  - injection Hstep as <- <-. cbn [view pending requests List.length].
    split; [|lia]. destruct (view p) as [l f0 d s t h pl x]. cbn in *.
    split; assumption.
Qed.

Lemma page_run_ok (events : list page_event) :
  forall p p' eff,
    page_ok p -> page_run events p = Some (p', eff) ->
    page_ok p' /\
    List.length (requests eff) + pending p = settled events + pending p'.
Proof.
  induction events as [|e rest IH]; intros p p' eff Hok Hrun.
  - injection Hrun as <- <-. split; [assumption | reflexivity].
  - cbn [page_run] in Hrun.
    destruct (page_step e p) as [[p1 e1]|] eqn:Hs; [|discriminate].
    destruct (page_run rest p1) as [[p2 e2]|] eqn:Hr; [|discriminate].
    injection Hrun as <- <-.
    destruct (page_step_ok e p p1 e1 Hok Hs) as [Hok1 Hc1].
    destruct (IH p1 p2 e2 Hok1 Hr) as [Hok2 Hc2].
    split; [assumption|]. rewrite requests_app, length_app.
    unfold settled in *. cbn [filter]. destruct e; cbn [List.length] in *; lia.
Qed.

(** X3.  From a page that is not loading, after any sequence of submits,
    settlements and edits of the form: at most one request is pending, the
    loading flag is set exactly then, the button is then disabled with the
    spinner shown, and every request issued so far has settled or is the
    pending one. *)
Theorem one_request_outstanding (events : list page_event) (st : ui)
    (p' : page) (eff : list effect) :
  isLoading st = false ->
  page_run events (fresh_page st) = Some (p', eff) ->
  pending p' <= 1 /\
  (isLoading (view p') = true <-> pending p' = 1) /\
  (isLoading (view p') = true ->
   generateBtn_disabled (view p') = true /\ spinner_hidden (view p') = false /\
   btnText_textContent (view p') = "Generating...") /\
  List.length (requests eff) = settled events + pending p'.
Proof.
  intros Hl Hrun.
  assert (Hok : page_ok (fresh_page st)).
  { split; cbn; rewrite Hl; [reflexivity | discriminate]. }
  destruct (page_run_ok events _ _ _ Hok Hrun) as [[Hpend Hind] Hcount].
  cbn in Hcount. rewrite Nat.add_0_r in Hcount.
  repeat split; try assumption.
  - rewrite Hpend. destruct (isLoading (view p')); lia.
  - intro Ht. now rewrite Hpend, Ht.
  - intro H1. rewrite Hpend in H1.
    destruct (isLoading (view p')); [reflexivity | discriminate].
  - now apply Hind.
  - now apply Hind.
  - now apply Hind.
Qed.

End HandlerMore.

(** ** downloadFile *)

Lemma filter_keeps_all {A} (f : A -> bool) (l : list A) :
  Forall (fun x => f x = true) l -> filter f l = l.
Proof.
  induction 1 as [|x l Hx _ IH]; [reflexivity|].
  cbn [filter]. now rewrite Hx, IH.
Qed.

Lemma others_stay (n : nat) (children : list nat) :
  Forall (fun k => k < n) children ->
  filter (fun k => negb (k =? n)%nat) children = children.
Proof.
  intro Hlt. apply filter_keeps_all.
  apply (Forall_impl _ (P := fun k => k < n)); [|exact Hlt].
  intros k Hk. apply negb_true_iff, Nat.eqb_neq. lia.
Qed.

(** X13.  [downloadFile] never throws and cleans up after itself: the
    children of the body and the store of object URLs are as before, and
    the one click it makes happens on an anchor that is in the document,
    carries the file name, and points to a live URL of a blob with the
    given content and type. *)
Theorem downloadFile_cleans_up (content fileName mimeType : string)
    (b : browser) :
  browser_ok b ->
  exists b',
    downloadFile content fileName mimeType b = Returns b' /\
    body b' = body b /\
    object_urls b' = object_urls b /\
    clicks b' =
      (clicks b ++
       [mkClick fileName (Some (mkBlob content mimeType)) true])%list /\
    browser_ok b'.
Proof.
  intros [Hbody Hurls].
  assert (Hkeep : filter (fun k => negb (k =? next_node b)%nat) (body b)
                  = body b) by now apply others_stay.
  assert (Hstore : filter (fun kb : nat * blob =>
                             negb (fst kb =? next_url b)%nat)
                          (object_urls b) = object_urls b).
  { apply filter_keeps_all.
    apply (Forall_impl _ (P := fun kb : nat * blob => fst kb < next_url b));
      [|exact Hurls].
    intros kb Hk. apply negb_true_iff, Nat.eqb_neq. lia. }
  assert (Hin : existsb (fun k => (k =? next_node b)%nat)
                        (appendChild (next_node b) (body b)) = true).
  { unfold appendChild. rewrite existsb_app. cbn [existsb].
    rewrite Nat.eqb_refl. now rewrite orb_true_r. }
  unfold downloadFile, removeChild. cbv zeta. rewrite Hin.
  eexists. split; [reflexivity|].
  cbn [body object_urls clicks next_node next_url].
  unfold appendChild. rewrite filter_app, !Hkeep. cbn [filter fst resolve].
  rewrite !Nat.eqb_refl. cbn [negb app]. rewrite Hstore, app_nil_r.
  split; [reflexivity|]. split; [reflexivity|]. split; [reflexivity|].
  split; cbn [body object_urls next_node next_url].
  - apply (Forall_impl _ (P := fun k => k < next_node b)); [|exact Hbody].
    intros k Hk. lia.
  - apply (Forall_impl _ (P := fun kb : nat * blob => fst kb < next_url b));
      [|exact Hurls].
    intros kb Hk. lia.
Qed.

(** ** The further properties at the sample inputs *)

Lemma one_request_per_submission_witness :
  isLoading idle_page = false /\
  requests (snd (@handleFormSubmit sample_platform (Rejected "network")
                   idle_page)) =
    [("gemini-2.5-flash", buildPrompt sample_form)].
Proof.
  assert (Hl : isLoading idle_page = false) by reflexivity.
  split; [exact Hl|].
  exact (@one_request_per_submission sample_platform (Rejected "network")
           idle_page Hl).
Defined.

Lemma export_controls_shown_iff_rendered_witness :
  isLoading idle_page = false /\
  (exportControls_hidden
     (snd (fst (@handleFormSubmit sample_platform
                  (Resolved (Some "# Plumbing")) idle_page))) = false <->
   exists safe, @renders_to sample_platform (Resolved (Some "# Plumbing")) safe).
Proof.
  assert (Hl : isLoading idle_page = false) by reflexivity.
  split; [exact Hl|].
  exact (@export_controls_shown_iff_rendered sample_platform
           (Resolved (Some "# Plumbing")) idle_page Hl).
Defined.

Lemma one_request_outstanding_witness :
  isLoading idle_page = false /\
  @page_run sample_platform sample_events (fresh_page idle_page) =
    Some (fst sample_session, snd sample_session) /\
  pending (fst sample_session) <= 1 /\
  (isLoading (view (fst sample_session)) = true <->
   pending (fst sample_session) = 1) /\
  (isLoading (view (fst sample_session)) = true ->
   generateBtn_disabled (view (fst sample_session)) = true /\
   spinner_hidden (view (fst sample_session)) = false /\
   btnText_textContent (view (fst sample_session)) = "Generating...") /\
  List.length (requests (snd sample_session)) =
    settled sample_events + pending (fst sample_session).
Proof.
  assert (Hl : isLoading idle_page = false) by reflexivity.
  assert (Hrun : @page_run sample_platform sample_events (fresh_page idle_page)
                 = Some (fst sample_session, snd sample_session))
    by (vm_compute; reflexivity).
  split; [exact Hl|]. split; [exact Hrun|].
  exact (@one_request_outstanding sample_platform sample_events idle_page
           _ _ Hl Hrun).
Defined.

Lemma page_usable_after_any_outcome_witness :
  isLoading idle_page = false /\
  (let st' := snd (fst (@handleFormSubmit sample_platform (Resolved None)
                          idle_page)) in
   handleFormSubmit_begin st' =
     (Returns true, begun st',
      [PreventDefault; InnerHTML "";
       GenerateContent "gemini-2.5-flash" (buildPrompt (form idle_page))])).
Proof.
  assert (Hl : isLoading idle_page = false) by reflexivity.
  split; [exact Hl|].
  exact (@page_usable_after_any_outcome sample_platform (Resolved None)
           idle_page Hl).
Defined.

Lemma results_replace_previous_output_witness :
  isLoading idle_page = false /\ isLoading used_page = false /\
  (let end1 := snd (fst (@handleFormSubmit sample_platform
                           (Resolved (Some "# Plumbing")) idle_page)) in
   let end2 := snd (fst (@handleFormSubmit sample_platform
                           (Resolved (Some "# Plumbing")) used_page)) in
   resultsContainer_innerHTML end1 = resultsContainer_innerHTML end2 /\
   exportControls_hidden end1 = exportControls_hidden end2).
Proof.
  assert (H1 : isLoading idle_page = false) by reflexivity.
  assert (H2 : isLoading used_page = false) by reflexivity.
  split; [exact H1|]. split; [exact H2|].
  exact (@results_replace_previous_output sample_platform
           (Resolved (Some "# Plumbing")) idle_page used_page H1 H2).
Defined.

Lemma csv_headers_once_when_first_table_has_them_witness :
  adjacent_tables (querySelectorAll "h4" (at_root scenario_doc))
    = [scenario_ad_table] /\
  @header_cells sample_platform scenario_ad_table <> [] /\
  @csv_data sample_platform scenario_doc =
    @header_cells sample_platform scenario_ad_table
    :: flat_map (@body_rows sample_platform) [scenario_ad_table] /\
  Forall (fun row : list string => row <> [])
         (@csv_data sample_platform scenario_doc).
Proof.
  assert (Ht : adjacent_tables (querySelectorAll "h4" (at_root scenario_doc))
               = [scenario_ad_table]) by reflexivity.
  assert (Hh : @header_cells sample_platform scenario_ad_table <> [])
    by discriminate.
  split; [exact Ht|]. split; [exact Hh|].
  exact (@csv_headers_once_when_first_table_has_them sample_platform
           scenario_doc scenario_ad_table [] Ht Hh).
Defined.

Lemma csv_rows_come_from_ad_group_tables_witness :
  In ["24h plumber"; "~800"] (@csv_data sample_platform scenario_doc) /\
  exists heading table,
    In heading (querySelectorAll "h4" (at_root scenario_doc)) /\
    has_tag "h4" (el heading) = true /\
    startsWith (textContent (el heading)) "Ad Group:" = true /\
    nextElementSibling heading = Some table /\
    tagName (el table) = "TABLE" /\
    (["24h plumber"; "~800"] = @header_cells sample_platform table \/
     In ["24h plumber"; "~800"] (@body_rows sample_platform table)).
Proof.
  assert (Hin : In ["24h plumber"; "~800"]
                   (@csv_data sample_platform scenario_doc))
    by (right; right; left; reflexivity).
  split; [exact Hin|].
  exact (@csv_rows_come_from_ad_group_tables sample_platform scenario_doc
           _ Hin).
Defined.

Lemma csv_cells_are_trimmed_witness :
  In ["24h plumber"; "~800"] (@csv_data sample_platform scenario_doc) /\
  In "~800" ["24h plumber"; "~800"] /\
  trimmed "~800" = true.
Proof.
  assert (Hrow : In ["24h plumber"; "~800"]
                    (@csv_data sample_platform scenario_doc))
    by (right; right; left; reflexivity).
  assert (Hcell : In "~800" ["24h plumber"; "~800"])
    by (right; left; reflexivity).
  split; [exact Hrow|]. split; [exact Hcell|].
  exact (@csv_cells_are_trimmed sample_platform scenario_doc _ _ Hrow Hcell).
Defined.

Lemma csv_export_reads_back_witness :
  adjacent_tables (querySelectorAll "h4" (at_root scenario_doc))
    = [scenario_ad_table] /\
  @header_cells sample_platform scenario_ad_table <> [] /\
  flat_map (@body_rows sample_platform) [scenario_ad_table] <> [] /\
  exists content,
    @exportKeywordsToCSV sample_platform scenario_doc =
      [DownloadFile content "keyword_ideas.csv" "text/csv;charset=utf-8;"] /\
    Csv.parse_csv content =
      Some (@header_cells sample_platform scenario_ad_table
            :: flat_map (@body_rows sample_platform) [scenario_ad_table]).
Proof.
  assert (Ht : adjacent_tables (querySelectorAll "h4" (at_root scenario_doc))
               = [scenario_ad_table]) by reflexivity.
  assert (Hh : @header_cells sample_platform scenario_ad_table <> [])
    by discriminate.
  assert (Hr : flat_map (@body_rows sample_platform) [scenario_ad_table] <> [])
    by discriminate.
  split; [exact Ht|]. split; [exact Hh|]. split; [exact Hr|].
  exact (@csv_export_reads_back sample_platform scenario_doc
           scenario_ad_table [] Ht Hh Hr).
Defined.

Lemma rowObject_last_header_wins_witness :
  "P" <> "__proto__" /\
  nth_error ["P"; "R"; "P"] 2 = Some "P" /\
  (forall j, 2 < j -> nth_error ["P"; "R"; "P"] j <> Some "P") /\
  obj_get "P" (@rowObject sample_platform ["P"; "R"; "P"] sample_cells)
  = Some "c".
Proof.
  assert (Hp : "P" <> "__proto__") by discriminate.
  assert (Hh : nth_error ["P"; "R"; "P"] 2 = Some "P") by reflexivity.
  assert (Hlast : forall j, 2 < j -> nth_error ["P"; "R"; "P"] j <> Some "P").
  { intros [|[|[|j]]] Hj; try lia. destruct j; discriminate. }
  split; [exact Hp|]. split; [exact Hh|]. split; [exact Hlast|].
  exact (@rowObject_last_header_wins sample_platform ["P"; "R"; "P"]
           sample_cells 2 "P" _ Hp Hh eq_refl Hlast).
Defined.

Lemma exported_objects_well_keyed_witness :
  In [("P", "c"); ("R", "b")]
     (@priority_rows sample_platform repeated_header_doc) /\
  NoDup (map fst [("P", "c"); ("R", "b")]) /\
  ~ In "__proto__" (map fst [("P", "c"); ("R", "b")]) /\
  forall k v, In (k, v) [("P", "c"); ("R", "b")] ->
              trimmed k = true /\ trimmed v = true.
Proof.
  assert (Hin : In [("P", "c"); ("R", "b")]
                   (@priority_rows sample_platform repeated_header_doc))
    by (left; reflexivity).
  split; [exact Hin|].
  exact (@exported_objects_well_keyed sample_platform repeated_header_doc
           _ Hin).
Defined.

Lemma buildPrompt_distinguishes_inputs_witness :
  one_line_inputs sample_form /\ one_line_inputs other_form /\
  sample_form <> other_form /\
  buildPrompt sample_form <> buildPrompt other_form.
Proof.
  assert (Hf : one_line_inputs sample_form) by (repeat split).
  assert (Hg : one_line_inputs other_form) by (repeat split).
  assert (Hne : sample_form <> other_form) by discriminate.
  split; [exact Hf|]. split; [exact Hg|]. split; [exact Hne|].
  exact (buildPrompt_distinguishes_inputs sample_form other_form Hf Hg Hne).
Defined.

Lemma downloadFile_cleans_up_witness :
  browser_ok sample_browser /\
  exists b',
    downloadFile "K,V" "keyword_ideas.csv" "text/csv;charset=utf-8;"
      sample_browser = Returns b' /\
    body b' = body sample_browser /\
    object_urls b' = object_urls sample_browser /\
    clicks b' =
      (clicks sample_browser ++
       [mkClick "keyword_ideas.csv"
          (Some (mkBlob "K,V" "text/csv;charset=utf-8;")) true])%list /\
    browser_ok b'.
Proof.
  assert (Hok : browser_ok sample_browser).
  { split; repeat constructor. }
  split; [exact Hok|].
  exact (downloadFile_cleans_up "K,V" "keyword_ideas.csv"
           "text/csv;charset=utf-8;" sample_browser Hok).
Defined.

(** ** Further checks *)

Example session_ends_waiting :
  pending (fst sample_session) = 1 /\
  requests (snd sample_session) =
    [("gemini-2.5-flash", buildPrompt sample_form);
     ("gemini-2.5-flash", buildPrompt other_form)].
Proof. split; reflexivity. Qed.

Example repeated_header_row :
  @priority_rows sample_platform repeated_header_doc
  = [[("P", "c"); ("R", "b")]].
Proof. vm_compute. reflexivity. Qed.

Example scenario_three_lines :
  count_char newline_char
    (Csv.csvContent (@csv_data sample_platform scenario_doc)) = 2.
Proof. reflexivity. Qed.

(** ** The heading levels at a document that mixes them *)

Lemma exports_scan_one_heading_level_witness :
  In ["under h4"] (@csv_data sample_platform mixed_levels_doc) /\
  @exportPriorityKeywordsToJSON sample_platform mixed_levels_doc =
    Returns [DownloadFile "P;R" "priority_keywords.json"
               "application/json;charset=utf-8;"] /\
  (exists heading table,
     In heading (descendants false mixed_levels_doc) /\
     has_tag "h4" (el heading) = true /\
     startsWith (textContent (el heading)) "Ad Group:" = true /\
     nextElementSibling heading = Some table /\
     tagName (el table) = "TABLE" /\
     (["under h4"] = @header_cells sample_platform table \/
      In ["under h4"] (@body_rows sample_platform table))) /\
  (exists heading table,
     In heading (descendants false mixed_levels_doc) /\
     has_tag "h3" (el heading) = true /\
     trim (textContent (el heading)) = "Priority Keywords" /\
     nextElementSibling heading = Some table /\
     tagName (el table) = "TABLE" /\
     "P;R" =
       @JSON_stringify sample_platform
         (map (fun row => @rowObject sample_platform
                            (@header_cells sample_platform table)
                            (querySelectorAll "td" row))
            (filter (fun row =>
                       (List.length (querySelectorAll "td" row)
                        =? List.length (@header_cells sample_platform table))%nat)
                    (querySelectorAll_tbody_tr table)))).
Proof.
  assert (Hrow : In ["under h4"] (@csv_data sample_platform mixed_levels_doc))
    by (right; left; reflexivity).
  assert (Hexp : @exportPriorityKeywordsToJSON sample_platform mixed_levels_doc
                 = Returns [DownloadFile "P;R" "priority_keywords.json"
                              "application/json;charset=utf-8;"])
    by reflexivity.
  split; [exact Hrow|]. split; [exact Hexp|]. split.
  - exact (proj1 (proj2 (proj2 (@exports_scan_one_heading_level
                                  sample_platform mixed_levels_doc)))
             _ Hrow).
  - exact (proj2 (proj2 (proj2 (@exports_scan_one_heading_level
                                  sample_platform mixed_levels_doc)))
             _ _ _ Hexp).
Defined.

Example mixed_levels_csv :
  @csv_data sample_platform mixed_levels_doc = [["K"]; ["under h4"]].
Proof. vm_compute. reflexivity. Qed.

Example mixed_levels_json :
  @priority_rows sample_platform mixed_levels_doc = [[("P", "a"); ("R", "b")]].
Proof. vm_compute. reflexivity. Qed.

Example plain_cell_stays_bare :
  needs_quoting "seo audit" = false /\
  Csv.escapeCell "seo audit" = "seo audit".
Proof. split; reflexivity. Qed.

Example delimiters_force_quotes :
  needs_quoting "a,b" = true /\ needs_quoting ("a" ++ nl ++ "b") = true /\
  needs_quoting ("a" ++ dq) = true /\
  Csv.escapeCell ("a" ++ dq) = in_quotes ("a" ++ dq ++ dq).
Proof. repeat split. Qed.
